(** * vqa_score: manifest converters

    A shallow embedding of the two conversion scripts of the repository,
    [video_dir_to_input.py] and [hf_db_to_input.py], and the properties of
    their manifest builders.

    Python text is modelled by [string] (sequences of ASCII characters),
    Python integers by [Z], and the dynamically typed values the scripts
    inspect by the inductive type [pyval].  What the scripts print is kept
    as a list of [event]s; exceptions are values of [exn].

    Scope of the model: text is ASCII; there are no floating-point values;
    an object is known by its attributes, which are data (reading one has
    no effect and does not raise); the records of a split are a finite
    list, and iterating it does not fail; the file system is what the
    scripts ask of it (the listing of one directory, the state of the
    output file). *)

From Stdlib Require Import ZArith String Ascii List Bool Lia.
From Stdlib Require Import DecimalString Sorting.Mergesort Sorting.Sorted.
From Stdlib Require Import Sorting.Permutation Orders.
Import ListNotations.

Local Open Scope list_scope.
Local Open Scope string_scope.
Local Open Scope Z_scope.

(* ================================================================== *)
(** ** Python string operations *)
(* ================================================================== *)

Module PyStr.

(** [s.startswith(p)] *)
Definition startswith (s p : string) : bool := String.prefix p s.

(** [sub in s] for two strings: [sub] occurs somewhere in [s]. *)
Fixpoint contains (sub s : string) : bool :=
  match s with
  | EmptyString => String.prefix sub EmptyString
  | String _ r => String.prefix sub s || contains sub r
  end.

(** [s.replace(old, new)]: every non-overlapping occurrence of [old], found
    from the left, is replaced.  [skip] counts the characters of the
    occurrence being replaced that are still to be dropped. *)
Fixpoint replace_from (old new : string) (skip : nat) (s : string) : string :=
  match s with
  | EmptyString => if String.eqb old EmptyString then new else EmptyString
  | String c r =>
      match skip with
      | S k => replace_from old new k r
      | O =>
          if String.eqb old EmptyString
          then new ++ String c (replace_from old new 0 r)
          else if String.prefix old s
          then new ++ replace_from old new (String.length old - 1) r
          else String c (replace_from old new 0 r)
      end
  end.

Definition replace (s old new : string) : string := replace_from old new 0 s.

(** [s.split(sep)] for a one-character separator, the only form the
    scripts use.  The result always has at least one piece. *)
Fixpoint split (s : string) (sep : ascii) : list string :=
  match s with
  | EmptyString => [EmptyString]
  | String c r =>
      if Ascii.eqb c sep then EmptyString :: split r sep
      else match split r sep with
           | [] => [String c EmptyString]
           | p :: ps => String c p :: ps
           end
  end.

(** [sep.join(parts)] *)
Definition join (sep : string) (parts : list string) : string :=
  String.concat sep parts.

(** [s.rfind(c)] for a one-character needle: the index of the last
    occurrence, or [-1]. *)
Fixpoint rfind (s : string) (c : ascii) : Z :=
  match s with
  | EmptyString => -1
  | String a r =>
      let i := rfind r c in
      if 0 <=? i then i + 1
      else if Ascii.eqb a c then 0 else -1
  end.

(** [s[n:]] for [0 <= n] *)
Fixpoint drop (n : nat) (s : string) : string :=
  match n, s with
  | O, _ => s
  | S k, EmptyString => EmptyString
  | S k, String _ r => drop k r
  end.

(** [posixpath.basename]: [i = p.rfind('/') + 1; return p[i:]] *)
Definition basename (p : string) : string :=
  let i := rfind p "/" + 1 in
  drop (Z.to_nat i) p.

Definition lower_char (c : ascii) : ascii :=
  let n := nat_of_ascii c in
  if (65 <=? n)%nat && (n <=? 90)%nat then ascii_of_nat (n + 32) else c.

(** [s.lower()] *)
Fixpoint lower (s : string) : string :=
  match s with
  | EmptyString => EmptyString
  | String c r => String (lower_char c) (lower r)
  end.

(** [str(n)] for an integer *)
Definition of_int (n : Z) : string := NilZero.string_of_int (Z.to_int n).

Definition hex_digit (n : nat) : ascii :=
  if (n <? 10)%nat then ascii_of_nat (48 + n) else ascii_of_nat (87 + n).

(** One character of [repr(s)], for the quote character [q] chosen. *)
Definition repr_char (q c : ascii) : string :=
  let n := nat_of_ascii c in
  if Ascii.eqb c q || Ascii.eqb c "\"
  then String "\" (String c EmptyString)
  else if (n =? 9)%nat then "\t"
  else if (n =? 10)%nat then "\n"
  else if (n =? 13)%nat then "\r"
  else if (n <? 32)%nat || (n =? 127)%nat
  then String "\" (String "x" (String (hex_digit (n / 16))
                               (String (hex_digit (n mod 16)) EmptyString)))
  else String c EmptyString.

Fixpoint repr_body (q : ascii) (s : string) : string :=
  match s with
  | EmptyString => EmptyString
  | String c r => repr_char q c ++ repr_body q r
  end.

Definition squote : ascii := ascii_of_nat 39.
Definition dquote : ascii := ascii_of_nat 34.

(** [repr(s)]: single quotes, unless [s] holds a single quote and no
    double quote. *)
Definition repr (s : string) : string :=
  let q := if contains (String squote EmptyString) s
              && negb (contains (String dquote EmptyString) s)
           then dquote else squote in
  String q (repr_body q s ++ String q EmptyString).

End PyStr.

(* ================================================================== *)
(** ** Python values, exceptions and the output monad *)
(* ================================================================== *)

Module Py.

(** The values the scripts handle: JSON-like data, and objects that are
    known only by their attributes.  An object carries the text that
    [str] and [repr] give for it. *)
#[local] Set Warnings "-register-all".
Inductive pyval : Type :=
| VNone
| VBool (b : bool)
| VInt (z : Z)
| VStr (s : string)
| VList (xs : list pyval)
| VDict (kvs : list (string * pyval))
| VObj (text : string) (attrs : list (string * pyval)).

(** Exceptions.  [ValueError] carries its message; [External] stands for
    whatever the dataset service raises. *)
Inductive exn : Type :=
| TypeError
| AttributeError
| KeyError (key : string)
| ValueError (msg : string)
| OSError
| FileNotFoundError (msg : string)
| NotADirectoryError (msg : string)
| JSONDecodeError
| External (what : string).

Inductive result (A : Type) : Type :=
| Ok (a : A)
| Raise (e : exn).
Arguments Ok {A} a.
Arguments Raise {A} e.

(** Lookup in an association list: a [dict], or the attributes of an
    object. *)
Fixpoint assoc (k : string) (kvs : list (string * pyval)) : option pyval :=
  match kvs with
  | [] => None
  | (k', v) :: rest => if String.eqb k k' then Some v else assoc k rest
  end.

(** [d[k] = v] for a key that may or may not be present: the value is
    replaced where the key stands, or the pair is added at the end. *)
Fixpoint assoc_set (k : string) (v : pyval) (kvs : list (string * pyval))
  : list (string * pyval) :=
  match kvs with
  | [] => [(k, v)]
  | (k', v') :: rest =>
      if String.eqb k k' then (k', v) :: rest
      else (k', v') :: assoc_set k v rest
  end.

Definition is_some {A} (o : option A) : bool :=
  match o with Some _ => true | None => false end.

(** [hasattr(v, name)] and [v.name], for the attribute names the scripts
    probe ([_hf_encoded], [container], [name], [_c], [file], [metadata],
    [path], [filename], [url], [src]): none of them is an attribute of a
    built-in value. *)
Definition getattr (v : pyval) (name : string) : option pyval :=
  match v with
  | VObj _ attrs => assoc name attrs
  | _ => None
  end.

Definition hasattr (v : pyval) (name : string) : bool :=
  is_some (getattr v name).

(** Truth value of [v] in a condition. *)
Definition truthy (v : pyval) : bool :=
  match v with
  | VNone => false
  | VBool b => b
  | VInt z => negb (z =? 0)
  | VStr s => negb (String.eqb s EmptyString)
  | VList xs => match xs with [] => false | _ => true end
  | VDict kvs => match kvs with [] => false | _ => true end
  | VObj _ _ => true
  end.

(** [repr(v)] *)
Fixpoint py_repr (v : pyval) : string :=
  match v with
  | VNone => "None"
  | VBool true => "True"
  | VBool false => "False"
  | VInt z => PyStr.of_int z
  | VStr s => PyStr.repr s
  | VList xs => "[" ++ PyStr.join ", " (map py_repr xs) ++ "]"
  | VDict kvs =>
      "{" ++ PyStr.join ", "
               (map (fun kv => PyStr.repr (fst kv) ++ ": " ++ py_repr (snd kv))
                    kvs) ++ "}"
  | VObj text _ => text
  end.

(** [str(v)], also what an f-string puts for [{v}]. *)
Definition py_str (v : pyval) : string :=
  match v with
  | VStr s => s
  | _ => py_repr v
  end.

(** [isinstance(v, str) and v.startswith(('http://', 'https://'))] *)
Definition is_http_url (v : pyval) : bool :=
  match v with
  | VStr s => PyStr.startswith s "http://" || PyStr.startswith s "https://"
  | _ => false
  end.

(** [os.path.basename(v)]: [os.fspath] refuses what is not a path. *)
Definition os_path_basename (v : pyval) : result string :=
  match v with
  | VStr s => Ok (PyStr.basename s)
  | _ => Raise TypeError
  end.

(** [key in v] for a string [key] *)
Definition py_contains (key : string) (v : pyval) : result bool :=
  match v with
  | VStr s => Ok (PyStr.contains key s)
  | VList xs =>
      Ok (existsb (fun x => match x with
                            | VStr s => String.eqb key s
                            | _ => false
                            end) xs)
  | VDict kvs => Ok (is_some (assoc key kvs))
  | _ => Raise TypeError
  end.

(** [v[key]] for a string [key] *)
Definition py_getitem (v : pyval) (key : string) : result pyval :=
  match v with
  | VDict kvs =>
      match assoc key kvs with
      | Some x => Ok x
      | None => Raise (KeyError key)
      end
  | _ => Raise TypeError
  end.

(** [v.name]; the scripts read an attribute only after [hasattr]. *)
Definition py_getattr (v : pyval) (name : string) : result pyval :=
  match getattr v name with
  | Some x => Ok x
  | None => Raise AttributeError
  end.

(** What a [None] or a string stands for in a condition, for the optional
    string arguments. *)
Definition given (o : option string) : bool :=
  match o with
  | Some s => negb (String.eqb s EmptyString)
  | None => false
  end.

Definition text (o : option string) : string :=
  match o with
  | Some s => s
  | None => EmptyString
  end.

(** Lines printed; the text of a line is determined by its constructor and
    arguments. *)
Inductive event : Type :=
(* get_video_url_from_hf *)
| WarnNoFilename (e : exn)
(* extract_videos_from_dataset *)
| WarnLabelColumn (label_column : string) (columns : pyval)
| ProcessingItems (n : nat)
| ProcessingStreaming
| UsingOverrideLabel (change_label : string)
| ReachedMaxItems (max_items : Z)
| ProcessedItems (n : Z)
| ErrorProcessingItem (i : Z) (e : exn)
(* main *)
| FoundExisting (output change_label : string)
| UpdatedEntries (n : nat) (change_label : string)
| JsonFileUpdated (output : string)
| ErrorDatabaseRequired
| LoadingDataset (database : string)
| UsingSubset (subset : string)
| DatasetLoaded
| AvailableSplits (splits : list string)
| NoVideoData
| ExtractedEntries (n : nat)
| FirstFewEntries
| EntryVideo (n : nat) (video : pyval)
| EntryLabel (label : string)
| JsonFileCreated (output : string)
| ContainsEntries (n : nat)
| LabelDistribution
| LabelCount (label : string) (count : nat)
| ErrorTop (e : exn).

(** Code that prints and may raise: the lines printed so far, and how the
    code ended. *)
Definition io (A : Type) : Type := (list event * result A)%type.

Definition ret {A} (a : A) : io A := ([], Ok a).

Definition raise {A} (e : exn) : io A := ([], Raise e).

Definition print (ev : event) : io unit := ([ev], Ok tt).

Definition lift {A} (r : result A) : io A := ([], r).

Definition bind {A B} (m : io A) (k : A -> io B) : io B :=
  match m with
  | (out, Ok a) => let (out', r) := k a in ((out ++ out')%list, r)
  | (out, Raise e) => (out, Raise e)
  end.

(** [try: m  except Exception as e: handler e] *)
Definition try_except {A} (m : io A) (handler : exn -> io A) : io A :=
  match m with
  | (out, Ok a) => (out, Ok a)
  | (out, Raise e) => let (out', r) := handler e in ((out ++ out')%list, r)
  end.

Declare Scope io_scope.
Delimit Scope io_scope with io.
Notation "x <- m ;; k" := (bind m (fun x => k))
  (at level 100, m at next level, right associativity) : io_scope.
Notation "m ;; k" := (bind m (fun _ => k))
  (at level 100, right associativity) : io_scope.

End Py.

(** [sorted] on a list of strings: a stable merge sort by the order of
    [str], which compares character by character. *)
Module StringOrder <: TotalLeBool.
Definition t : Type := string.
Definition leb : t -> t -> bool := String.leb.
Definition leb_total : forall x y : t, leb x y = true \/ leb y x = true :=
  String.leb_total.
End StringOrder.

Module StringSort := Sort StringOrder.

(* ================================================================== *)
(** ** video_dir_to_input.py *)
(* ================================================================== *)

Module VideoDirToInput.
Import Py.

(** A [pathlib] path: the root ([""], ["/"] or ["//"]) and the parts after
    it.  [Path s] drops empty and ["."] components. *)
Record path : Type := { root : string; parts : list string }.

Definition Path (s : string) : path :=
  {| root := if PyStr.startswith s "//" && negb (PyStr.startswith s "///")
             then "//"
             else if PyStr.startswith s "/" then "/" else "";
     parts := filter (fun c => negb (String.eqb c "") && negb (String.eqb c "."))
                     (PyStr.split s "/") |}.

(** [str(p)] *)
Definition path_str (p : path) : string :=
  match parts p with
  | [] => if String.eqb (root p) "" then "." else root p
  | _ => root p ++ PyStr.join "/" (parts p)
  end.

(** [p / name], for an entry [name] of the directory [p] *)
Definition child (p : path) (name : string) : path :=
  {| root := root p; parts := (parts p ++ [name])%list |}.

(** [p.name] *)
Definition path_name (p : path) : string := last (parts p) "".

(** [p.suffix]:
    [i = name.rfind('.'); name[i:] if 0 < i < len(name) - 1 else ''] *)
Definition suffix (p : path) : string :=
  let name := path_name p in
  let i := PyStr.rfind name "." in
  if (0 <? i) && (i <? Z.of_nat (String.length name) - 1)
  then PyStr.drop (Z.to_nat i) name
  else "".

(** What the file system holds at a path.  A directory lists its entries
    in the order [iterdir] yields them, each with what [is_file] says. *)
Inductive node : Type :=
| Absent
| NotDirectory
| Dir (entries : list (string * bool)).

Definition filesystem : Type := string -> node.

Definition VIDEO_EXTENSIONS : list string :=
  [".mp4"; ".avi"; ".mov"; ".mkv"; ".wmv"; ".flv"; ".webm"; ".m4v"; ".3gp"].

Definition in_set (s : string) (set : list string) : bool :=
  existsb (String.eqb s) set.

(** The test of the loop of [find_video_files] *)
Definition is_video (directory_path : path) (entry : string * bool) : bool :=
  snd entry
  && in_set (PyStr.lower (suffix (child directory_path (fst entry))))
            VIDEO_EXTENSIONS.

Definition find_video_files (fs : filesystem) (directory : string)
  : result (list string) :=
  let directory_path := Path directory in
  match fs (path_str directory_path) with
  | Absent => Raise (FileNotFoundError ("Directory not found: " ++ directory))
  | NotDirectory =>
      Raise (NotADirectoryError ("Path is not a directory: " ++ directory))
  | Dir entries =>
      let video_files :=
        map (fun entry => path_str (child directory_path (fst entry)))
            (filter (is_video directory_path) entries) in
      Ok (StringSort.sort video_files)
  end.

Record entry : Type := { video : string; label : string }.

Definition create_json_input (video_files : list string) (label : string)
  : list entry :=
  map (fun video_path => {| video := video_path; label := label |}) video_files.

End VideoDirToInput.

(* ================================================================== *)
(** ** hf_db_to_input.py *)
(* ================================================================== *)

Module HfDbToInput.
Import Py.
Local Open Scope io_scope.

(** *** get_video_url_from_hf *)

(** [f"video_{file_index}.mp4"] *)
Definition placeholder (file_index : Z) : string :=
  "video_" ++ PyStr.of_int file_index ++ ".mp4".

(** [f"https://huggingface.co/datasets/{dataset}/resolve/main/{filename}"] *)
Definition resolve_url (dataset filename : string) : string :=
  "https://huggingface.co/datasets/" ++ dataset ++ "/resolve/main/" ++ filename.

(** How the chain of cases ends: with a [return], or with the variable
    [filename] set ([VNone] when no case assigned it). *)
Inductive located : Type :=
| Returned (v : pyval)
| Named (filename : pyval).

(** [hf_path.startswith(..)] when [hf_path] is not a string. *)
Definition no_startswith (v : pyval) : exn :=
  if hasattr v "startswith" then TypeError else AttributeError.

(** Lines 36-54: the [_hf_encoded] dictionary [encoded]. *)
Definition from_hf_encoded (encoded : list (string * pyval)) : io located :=
  let hf_path := match assoc "path" encoded with
                 | Some v => v
                 | None => VStr ""
                 end in
  match hf_path with
  | VStr p =>
      if PyStr.startswith p "hf://" then
        let path_parts := PyStr.split (PyStr.replace p "hf://" "") "/" in
        if (3 <=? length path_parts)%nat then
          let dataset_path := PyStr.join "/" (removelast (tl path_parts)) in
          let filename := last path_parts "" in
          let dataset_path :=
            if PyStr.contains "@" dataset_path
            then hd "" (PyStr.split dataset_path "@")
            else dataset_path in
          ret (Returned (VStr (resolve_url dataset_path filename)))
        else ret (Named VNone)
      else if truthy hf_path then ret (Named (VStr (PyStr.basename p)))
      else ret (Named VNone)
  | _ => raise (no_startswith hf_path)
  end.

(** Lines 67-82: the guarded search through the container. *)
Definition from_container_guarded (video_item : pyval) (file_index : Z)
  : io pyval :=
  try_except
    (container <- lift (py_getattr video_item "container") ;;
     if hasattr container "name" then
       name <- lift (py_getattr container "name") ;;
       f <- lift (os_path_basename name) ;;
       ret (VStr f)
     else if hasattr container "metadata" then
       metadata <- lift (py_getattr container "metadata") ;;
       present <- lift (py_contains "filename" metadata) ;;
       if present : bool then lift (py_getitem metadata "filename")
       else ret VNone
     else if hasattr container "file" then
       file <- lift (py_getattr container "file") ;;
       if hasattr file "name" then
         name <- lift (py_getattr file "name") ;;
         f <- lift (os_path_basename name) ;;
         ret (VStr f)
       else ret (VStr (py_str file))
     else ret VNone)
    (fun e =>
       print (WarnNoFilename e) ;;
       ret (VStr (placeholder file_index))).

(** [hasattr(video_item, '_c') and hasattr(video_item._c, 'file')
     and hasattr(video_item._c.file, 'name')] *)
Definition has_c_file_name (video_item : pyval) : bool :=
  match getattr video_item "_c" with
  | Some c =>
      match getattr c "file" with
      | Some file => hasattr file "name"
      | None => false
      end
  | None => false
  end.

(** Lines 59-82: an object with [container] and [_hf_encoded]. *)
Definition from_container (video_item : pyval) (file_index : Z) : io located :=
  container <- lift (py_getattr video_item "container") ;;
  if hasattr container "name" then
    path <- lift (py_getattr container "name") ;;
    f <- lift (os_path_basename path) ;;
    ret (Named (VStr f))
  else if has_c_file_name video_item then
    c <- lift (py_getattr video_item "_c") ;;
    file <- lift (py_getattr c "file") ;;
    path <- lift (py_getattr file "name") ;;
    f <- lift (os_path_basename path) ;;
    ret (Named (VStr f))
  else
    filename <- from_container_guarded video_item file_index ;;
    ret (Named filename).

(** Lines 109-117: the keys of a dictionary, in the order tried. *)
Fixpoint from_dict (keys : list string) (video_item : list (string * pyval))
  : located :=
  match keys with
  | [] => Named VNone
  | key :: rest =>
      match assoc key video_item with
      | Some (VStr value) =>
          if is_http_url (VStr value) then Returned (VStr value)
          else Named (VStr (PyStr.basename value))
      | _ => from_dict rest video_item
      end
  end.

(** [hasattr(video_item, '_hf_encoded')
     and isinstance(video_item._hf_encoded, dict)] *)
Definition hf_encoded_dict (video_item : pyval)
  : option (list (string * pyval)) :=
  match getattr video_item "_hf_encoded" with
  | Some (VDict encoded) => Some encoded
  | _ => None
  end.

(** Lines 27-124: the chain of cases. *)
Definition locate (video_item : pyval) (file_index : Z) : io located :=
  if is_http_url video_item then ret (Returned video_item)
  else
    match hf_encoded_dict video_item with
    | Some encoded => from_hf_encoded encoded
    | None =>
        if hasattr video_item "container" && hasattr video_item "_hf_encoded"
        then from_container video_item file_index
        else if hasattr video_item "path" then
          path <- lift (py_getattr video_item "path") ;;
          f <- lift (os_path_basename path) ;;
          ret (Named (VStr f))
        else if hasattr video_item "filename" then
          filename <- lift (py_getattr video_item "filename") ;;
          ret (Named filename)
        else if hasattr video_item "name" then
          filename <- lift (py_getattr video_item "name") ;;
          ret (Named filename)
        else if hasattr video_item "url" then
          url <- lift (py_getattr video_item "url") ;;
          ret (Returned url)
        else if hasattr video_item "src" then
          src <- lift (py_getattr video_item "src") ;;
          if is_http_url src then ret (Returned src)
          else ret (Named (VStr (PyStr.basename (py_str src))))
        else
          match video_item with
          | VStr s =>
              if PyStr.startswith s "/"
              then ret (Named (VStr (PyStr.basename s)))
              else ret (Named video_item)
          | VDict d =>
              ret (from_dict ["url"; "src"; "path"; "filename"; "name"] d)
          | _ =>
              let str_item := py_str video_item in
              if PyStr.contains "/" str_item
              then ret (Named (VStr (PyStr.basename str_item)))
              else ret (Named (VStr str_item))
          end
    end.

(** [filename != 'None'] *)
Definition not_None_text (filename : pyval) : bool :=
  match filename with
  | VStr s => negb (String.eqb s "None")
  | _ => true
  end.

(** The condition of line 127. *)
Definition can_build_url (filename : pyval) (dataset_name : string) : bool :=
  truthy filename
  && negb (String.eqb dataset_name "")
  && not_None_text filename
  && negb (PyStr.contains "<none>" (PyStr.lower (py_str filename))).

(** Lines 127-135. *)
Definition finish (filename : pyval) (dataset_name : string) (file_index : Z)
  : pyval :=
  if can_build_url filename dataset_name then
    let dataset_clean := PyStr.replace dataset_name "/" "--" in
    let hf_url := resolve_url dataset_name (py_str filename) in
    VStr hf_url
  else if truthy filename then filename
  else VStr (placeholder file_index).

Definition get_video_url_from_hf
  (video_item : pyval) (dataset_name : string) (file_index : Z) : io pyval :=
  found <- locate video_item file_index ;;
  match found with
  | Returned v => ret v
  | Named filename => ret (finish filename dataset_name file_index)
  end.

(** *** extract_videos_from_dataset *)

(** One split of a loaded dataset: the records it yields, whether it has a
    [column_names] attribute (and its value), and whether it has a
    length. *)
Record table : Type := {
  column_names : option pyval;
  has_len : bool;
  rows : list pyval
}.

(** What [load_dataset] gives: one split, or a dictionary of splits. *)
Inductive dataset : Type :=
| OneSplit (data : table)
| SplitDict (splits : list (string * table)).

Fixpoint lookup_split (split : string) (splits : list (string * table))
  : option table :=
  match splits with
  | [] => None
  | (name, data) :: rest =>
      if String.eqb split name then Some data else lookup_split split rest
  end.

(** A manifest entry, [{"video": .., "label": ..}]. *)
Record entry : Type := { video : pyval; label : string }.

(** Lines 164-170. *)
Definition select_split (dataset : dataset) (split : string) : io table :=
  match dataset with
  | SplitDict splits =>
      match lookup_split split splits with
      | None =>
          let available_splits := map fst splits in
          raise (ValueError ("Split '" ++ split
                             ++ "' not found. Available splits: "
                             ++ py_str (VList (map VStr available_splits))))
      | Some data => ret data
      end
  | OneSplit data => ret data
  end.

(** Lines 173-179: gives the label column still in use. *)
Definition check_columns (data : table) (video_column : string)
  (label_column : option string) : io (option string) :=
  match column_names data with
  | Some columns =>
      has_video <- lift (py_contains video_column columns) ;;
      if negb has_video then
        raise (ValueError ("Video column '" ++ video_column
                           ++ "' not found. Available columns: "
                           ++ py_str columns))
      else if given label_column then
        has_label <- lift (py_contains (text label_column) columns) ;;
        if negb has_label then
          print (WarnLabelColumn (text label_column) columns) ;;
          ret None
        else ret label_column
      else ret label_column
  | None => ret label_column
  end.

(** [max_items and i >= max_items] *)
Definition limit_reached (max_items : option Z) (i : Z) : bool :=
  match max_items with
  | Some m => negb (m =? 0) && (m <=? i)
  | None => false
  end.

(** Lines 205-212: the label of record [item]. *)
Definition item_label (label_column : option string) (default_label : string)
  (use_label : option string) (item : pyval) : io string :=
  if given use_label then ret (text use_label)
  else if given label_column then
    present <- lift (py_contains (text label_column) item) ;;
    if present : bool then
      v <- lift (py_getitem item (text label_column)) ;;
      ret (py_str v)
    else ret default_label
  else ret default_label.

(** Lines 202-217: the entry of record [item], number [i]. *)
Definition process_item (dataset_name video_column : string)
  (label_column : option string) (default_label : string)
  (use_label : option string) (i : Z) (item : pyval) : io entry :=
  video_data <- lift (py_getitem item video_column) ;;
  video_url <- get_video_url_from_hf video_data dataset_name i ;;
  label <- item_label label_column default_label use_label item ;;
  ret {| video := video_url; label := label |}.

(** How one turn of the loop ends: [break], or on to the next record with
    the results so far. *)
Inductive flow : Type :=
| Break
| Next (results : list entry).

(** Lines 195-224: the body of the loop, with its handler. *)
Definition loop_body (dataset_name video_column : string)
  (label_column : option string) (max_items : option Z)
  (default_label : string) (use_label : option string)
  (results : list entry) (i : Z) (item : pyval) : io flow :=
  try_except
    (if limit_reached max_items i then
       print (ReachedMaxItems (match max_items with Some m => m | None => 0 end)) ;;
       ret Break
     else
       e <- process_item dataset_name video_column label_column
                         default_label use_label i item ;;
       let results := (results ++ [e])%list in
       (if (i + 1) mod 10 =? 0 then print (ProcessedItems (i + 1))
        else ret tt) ;;
       ret (Next results))
    (fun e =>
       print (ErrorProcessingItem i e) ;;
       ret (Next results)).

(** Lines 194-226: [for i, item in enumerate(data)], from record number
    [i] on. *)
Fixpoint loop (dataset_name video_column : string)
  (label_column : option string) (max_items : option Z)
  (default_label : string) (use_label : option string)
  (items : list pyval) (i : Z) (results : list entry) : io (list entry) :=
  match items with
  | [] => ret results
  | item :: rest =>
      step <- loop_body dataset_name video_column label_column max_items
                        default_label use_label results i item ;;
      match step with
      | Break => ret results
      | Next results =>
          loop dataset_name video_column label_column max_items
               default_label use_label rest (i + 1) results
      end
  end.

Definition extract_videos_from_dataset (dataset : dataset)
  (dataset_name video_column : string) (label_column : option string)
  (split : string) (max_items : option Z) (default_label : string)
  (change_label : option string) : io (list entry) :=
  let results := [] in
  data <- select_split dataset split ;;
  label_column <- check_columns data video_column label_column ;;
  (if has_len data then print (ProcessingItems (length (rows data)))
   else print ProcessingStreaming) ;;
  use_label <-
    (if given change_label then
       print (UsingOverrideLabel (text change_label)) ;;
       ret change_label
     else ret None) ;;
  loop dataset_name video_column label_column max_items default_label
       use_label (rows data) 0 results.

(** *** main *)

(** The parsed command line. *)
Module args.
Record t : Type := {
  database : option string;
  output : string;
  label : string;
  change_label : option string;
  video_column : string;
  label_column : option string;
  split : string;
  subset : option string;
  streaming : bool;
  max_items : option Z
}.
End args.

(** What stands at the path [args.output]: nothing, a directory, or a file
    that holds a JSON value or text that is not JSON. *)
Inductive file_state : Type :=
| Missing
| IsDirectory
| Holds (json : option pyval).

Record world : Type := { output_file : file_state; writable : bool }.

(** Code that also reads and writes the output file. *)
Definition cmd (A : Type) : Type := world -> world * io A.

Definition cret {A} (a : A) : cmd A := fun w => (w, ret a).

Definition run_io {A} (m : io A) : cmd A := fun w => (w, m).

Definition cbind {A B} (m : cmd A) (k : A -> cmd B) : cmd B :=
  fun w =>
    match m w with
    | (w1, (out, Ok a)) =>
        match k a w1 with
        | (w2, (out', r)) => (w2, ((out ++ out')%list, r))
        end
    | (w1, (out, Raise e)) => (w1, (out, Raise e))
    end.

Definition ctry_except {A} (m : cmd A) (handler : exn -> cmd A) : cmd A :=
  fun w =>
    match m w with
    | (w1, (out, Ok a)) => (w1, (out, Ok a))
    | (w1, (out, Raise e)) =>
        match handler e w1 with
        | (w2, (out', r)) => (w2, ((out ++ out')%list, r))
        end
    end.

Declare Scope cmd_scope.
Delimit Scope cmd_scope with cmd.
Notation "x <- m ;; k" := (cbind m (fun x => k))
  (at level 100, m at next level, right associativity) : cmd_scope.
Notation "m ;; k" := (cbind m (fun _ => k))
  (at level 100, right associativity) : cmd_scope.

(** [os.path.exists(args.output)] *)
Definition path_exists : cmd bool :=
  fun w =>
    (w, ret match output_file w with
            | Missing => false
            | _ => true
            end).

(** [with open(args.output, 'r') as f: json.load(f)] *)
Definition json_load (output : string) : cmd pyval :=
  fun w =>
    (w, lift match output_file w with
             | Holds (Some v) => Ok v
             | Holds None => Raise JSONDecodeError
             | IsDirectory => Raise OSError
             | Missing => Raise (FileNotFoundError output)
             end).

(** What [json.dump] can write. *)
Fixpoint serializable (v : pyval) : bool :=
  match v with
  | VList xs => forallb serializable xs
  | VDict kvs => forallb (fun kv => serializable (snd kv)) kvs
  | VObj _ _ => false
  | _ => true
  end.

(** [with open(args.output, 'w') as f: json.dump(v, f, indent=4)]: opening
    empties the file, and a value that cannot be written leaves it without
    a complete JSON text. *)
Definition json_dump (v : pyval) : cmd unit :=
  fun w =>
    match output_file w with
    | IsDirectory => (w, raise OSError)
    | _ =>
        if writable w then
          if serializable v
          then ({| output_file := Holds (Some v); writable := writable w |},
                ret tt)
          else ({| output_file := Holds None; writable := writable w |},
                raise TypeError)
        else (w, raise OSError)
    end.

(** Lines 262-263: one entry of the loaded manifest. *)
Definition rewrite_label (new_label : string) (item : pyval) : pyval :=
  match item with
  | VDict kvs =>
      if is_some (assoc "label" kvs)
      then VDict (assoc_set "label" (VStr new_label) kvs)
      else item
  | _ => item
  end.

(** Lines 261-263: the loop over the loaded manifest.  A dictionary yields
    its keys and a string its characters, none of which is a [dict]. *)
Definition rewrite_labels (json_data : pyval) (new_label : string)
  : result pyval :=
  match json_data with
  | VList items => Ok (VList (map (rewrite_label new_label) items))
  | VDict _ => Ok json_data
  | VStr _ => Ok json_data
  | _ => Raise TypeError
  end.

(** [len(v)] *)
Definition py_len (v : pyval) : result nat :=
  match v with
  | VStr s => Ok (String.length s)
  | VList xs => Ok (length xs)
  | VDict kvs => Ok (length kvs)
  | _ => Raise TypeError
  end.

Definition entry_json (e : entry) : pyval :=
  VDict [("video", video e); ("label", VStr (label e))].

Definition print_all (lines : list event) : io unit := (lines, Ok tt).

(** Lines 314-316: the lines for the first three entries. *)
Definition first_entries (json_data : list entry) : list event :=
  flat_map (fun ie => [EntryVideo (fst ie + 1) (video (snd ie));
                       EntryLabel (label (snd ie))])
           (combine (seq 0 3) (firstn 3 json_data)).

(** Lines 326-332: the label distribution. *)
Definition label_distribution (json_data : list entry) : io unit :=
  let labels := map label json_data in
  let unique_labels := nodup string_dec labels in
  if (1 <? length unique_labels)%nat then
    (print LabelDistribution ;;
     print_all (map (fun l => LabelCount l (count_occ string_dec labels l))
                    (StringSort.sort unique_labels)))%io
  else ret tt.

(** Lines 254-271: the labels of an existing manifest are rewritten. *)
Definition rewrite_existing (a : args.t) : cmd (option Z) :=
  (run_io (print (FoundExisting (args.output a)
                                (text (args.change_label a)))) ;;
   json_data <- json_load (args.output a) ;;
   json_data <- run_io (lift (rewrite_labels json_data
                                (text (args.change_label a)))) ;;
   json_dump json_data ;;
   n <- run_io (lift (py_len json_data)) ;;
   run_io (print (UpdatedEntries n (text (args.change_label a)))) ;;
   run_io (print (JsonFileUpdated (args.output a))) ;;
   cret (Some 0))%cmd.

(** Lines 274-332: the manifest is built from the dataset and written.
    No [return] follows line 332. *)
Definition build_manifest
  (load_dataset : string -> option string -> result dataset) (a : args.t)
  : cmd (option Z) :=
  (if negb (given (args.database a)) then
     run_io (print ErrorDatabaseRequired) ;;
     cret (Some 1)
   else
     run_io (print (LoadingDataset (text (args.database a)))) ;;
     run_io (if given (args.subset a)
             then print (UsingSubset (text (args.subset a)))
             else ret tt) ;;
     dataset <- run_io (lift (load_dataset (text (args.database a))
                                           (args.subset a))) ;;
     run_io (print DatasetLoaded) ;;
     run_io (match dataset with
             | SplitDict splits => print (AvailableSplits (map fst splits))
             | OneSplit _ => ret tt
             end) ;;
     json_data <- run_io (extract_videos_from_dataset dataset
                            (text (args.database a)) (args.video_column a)
                            (args.label_column a) (args.split a)
                            (args.max_items a) (args.label a)
                            (args.change_label a)) ;;
     match json_data with
     | [] =>
         run_io (print NoVideoData) ;;
         cret (Some 1)
     | _ =>
         run_io (print (ExtractedEntries (length json_data))) ;;
         run_io (print FirstFewEntries) ;;
         run_io (print_all (first_entries json_data)) ;;
         json_dump (VList (map entry_json json_data)) ;;
         run_io (print (JsonFileCreated (args.output a))) ;;
         run_io (print (ContainsEntries (length json_data))) ;;
         run_io (label_distribution json_data) ;;
         cret None
     end)%cmd.

(** Line 253: [args.change_label and os.path.exists(args.output)] *)
Definition relabel_requested (a : args.t) : cmd bool :=
  if given (args.change_label a) then path_exists else cret false.

(** Lines 251-336: [main] from its [try] on, on the command line [a] that
    [parser.parse_args()] of line 249 has accepted.  Its return value is
    [None] (no [return] reached), [0] or [1]. *)
Definition main (load_dataset : string -> option string -> result dataset)
  (a : args.t) : cmd (option Z) :=
  (ctry_except
     (relabel <- relabel_requested a ;;
      if relabel : bool then rewrite_existing a
      else build_manifest load_dataset a)
     (fun e =>
        run_io (print (ErrorTop e)) ;;
        cret (Some 1)))%cmd.

End HfDbToInput.

(* ================================================================== *)
(** ** The operations on examples *)
(* ================================================================== *)

Example replace_every_occurrence :
  PyStr.replace "hf://a/hf://b" "hf://" "" = "a/b".
Proof. reflexivity. Qed.

Example split_keeps_empty_pieces :
  PyStr.split "a//b/" "/" = ["a"; ""; "b"; ""].
Proof. reflexivity. Qed.

Example repr_escapes :
  PyStr.repr (String (ascii_of_nat 1) (String (ascii_of_nat 127)
                (String (ascii_of_nat 9) (String (ascii_of_nat 10) "a\b"))))
  = "'\x01\x7f\t\na\\b'".
Proof. reflexivity. Qed.

Example basename_examples :
  PyStr.basename "/data/clips/c.mp4" = "c.mp4"
  /\ PyStr.basename "c.mp4" = "c.mp4"
  /\ PyStr.basename "clips/" = "".
Proof. repeat split. Qed.

Example str_of_values :
  Py.py_str (Py.VDict [("a", Py.VInt 1);
                       ("b", Py.VList [Py.VNone; Py.VBool true;
                                       Py.VStr "it's"])])
  = String.concat ""
      ["{'a': 1, 'b': [None, True, "; String PyStr.dquote "it's";
       String PyStr.dquote "]}"].
Proof. reflexivity. Qed.

Example suffix_examples :
  map (fun name => VideoDirToInput.suffix
                     (VideoDirToInput.child (VideoDirToInput.Path "videos")
                                            name))
      ["clip.MP4"; ".mp4"; "clip."; "clip.tar.gz"; "clip"; "..mp4"; "a..mp4"]
  = [".MP4"; ""; ""; ".gz"; ""; ".mp4"; ".mp4"].
Proof. reflexivity. Qed.

Example path_examples :
  map (fun d => VideoDirToInput.path_str
                  (VideoDirToInput.child (VideoDirToInput.Path d) "a.mp4"))
      ["videos"; "./videos/"; "."; "/"; "a//b/./c"; "//x"; "///x"; ""]
  = ["videos/a.mp4"; "videos/a.mp4"; "a.mp4"; "/a.mp4"; "a/b/c/a.mp4";
     "//x/a.mp4"; "/x/a.mp4"; "a.mp4"].
Proof. reflexivity. Qed.

(* ================================================================== *)
(** ** Properties of the directory converter *)
(* ================================================================== *)

Section DirectoryMode.
Import Py VideoDirToInput.

Lemma videos_of_manifest (video_files : list string) (label : string) :
  map video (create_json_input video_files label) = video_files.
Proof.
  unfold create_json_input. rewrite map_map. simpl. apply map_id.
Qed.

Lemma labels_of_manifest (video_files : list string) (l : string) :
  Forall (fun e => label e = l) (create_json_input video_files l).
Proof.
  unfold create_json_input. apply Forall_forall. intros e He.
  apply in_map_iff in He. destruct He as [p [<- _]]. reflexivity.
Qed.

(** The name of an entry of a directory, as a path, is its own name. *)
Lemma name_of_child (p : path) (name : string) :
  path_name (child p name) = name.
Proof.
  unfold path_name, child. simpl. apply last_last.
Qed.

Lemma ascii_compare_refl (a : ascii) : Ascii.compare a a = Eq.
Proof. unfold Ascii.compare. apply N.compare_refl. Qed.

Lemma ascii_compare_lt_trans (a b c : ascii) :
  Ascii.compare a b = Lt -> Ascii.compare b c = Lt -> Ascii.compare a c = Lt.
Proof.
  unfold Ascii.compare. rewrite !N.compare_lt_iff. apply N.lt_trans.
Qed.

(** The order of strings is transitive. *)
Lemma string_leb_trans (s t u : string) :
  String.leb s t = true -> String.leb t u = true -> String.leb s u = true.
Proof.
  unfold String.leb. revert t u.
  induction s as [|a s IH]; intros [|b t] [|c u]; simpl; try easy.
  destruct (Ascii.compare a b) eqn:Hab; try easy;
    destruct (Ascii.compare b c) eqn:Hbc; try easy.
  - apply Ascii.compare_eq_iff in Hab, Hbc. subst.
    rewrite ascii_compare_refl. apply IH.
  - apply Ascii.compare_eq_iff in Hab. subst. now rewrite Hbc.
  - apply Ascii.compare_eq_iff in Hbc. subst. now rewrite Hab.
  - now rewrite (ascii_compare_lt_trans a b c Hab Hbc).
Qed.

(** C9. In directory mode, for every directory, the videos of the manifest
    are exactly the paths of the entries of the directory that are files
    and whose suffix, in lower case, is a recognized video extension, one
    entry for each such file; they are sorted by the order of strings,
    each path before all the later ones; and every entry has the label
    supplied. *)
Theorem directory_manifest_sorted_videos_only
  (fs : filesystem) (directory : string) (entries : list (string * bool))
  (label_given : string) :
  fs (path_str (Path directory)) = Dir entries ->
  exists video_files,
    find_video_files fs directory = Ok video_files /\
    let manifest := create_json_input video_files label_given in
    Permutation
      (map (fun e => path_str (child (Path directory) (fst e)))
           (filter (fun e => snd e
                      && in_set (PyStr.lower
                                   (suffix (child (Path directory) (fst e))))
                                VIDEO_EXTENSIONS)
                   entries))
      (map video manifest) /\
    StronglySorted (fun p q => String.leb p q = true) (map video manifest) /\
    Forall (fun e => label e = label_given) manifest /\
    length manifest
    = length (filter (is_video (Path directory)) entries).
Proof.
  intros Hdir. unfold find_video_files. rewrite Hdir.
  eexists. split; [reflexivity|]. cbv zeta.
  rewrite videos_of_manifest.
  split; [|split; [|split]].
  - apply StringSort.Permuted_sort.
  - apply Sorted_StronglySorted.
    + intros s t u. apply string_leb_trans.
    + apply StringSort.Sorted_sort.
  - apply labels_of_manifest.
  - unfold create_json_input. rewrite length_map.
    rewrite <- (Permutation_length (StringSort.Permuted_sort _)).
    rewrite length_map. reflexivity.
Qed.

End DirectoryMode.

Definition example_filesystem : VideoDirToInput.filesystem :=
  fun p =>
    if String.eqb p "videos"
    then VideoDirToInput.Dir
           [("b.MP4", true); ("notes.txt", true); ("a.mkv", true);
            ("clips.mp4", false); (".mp4", true)]
    else VideoDirToInput.Absent.

Example example_directory_manifest :
  option_map (fun files => VideoDirToInput.create_json_input files "moving")
             (match VideoDirToInput.find_video_files example_filesystem
                      "./videos/" with
              | Py.Ok files => Some files
              | Py.Raise _ => None
              end)
  = Some [ {| VideoDirToInput.video := "videos/a.mkv";
              VideoDirToInput.label := "moving" |};
           {| VideoDirToInput.video := "videos/b.MP4";
              VideoDirToInput.label := "moving" |} ].
Proof. reflexivity. Qed.

Lemma directory_manifest_sorted_videos_only_witness :
  exists video_files,
    VideoDirToInput.find_video_files example_filesystem "videos"
    = Py.Ok video_files /\
    length (VideoDirToInput.create_json_input video_files "moving") = 2%nat.
Proof.
  destruct (directory_manifest_sorted_videos_only example_filesystem "videos"
              [("b.MP4", true); ("notes.txt", true); ("a.mkv", true);
               ("clips.mp4", false); (".mp4", true)] "moving" eq_refl)
    as [files [Hfind [_ [_ [_ Hlen]]]]].
  exists files. split; [exact Hfind | exact Hlen].
Defined.

(* ================================================================== *)
(** ** Properties of the reference resolver *)
(* ================================================================== *)

(* ================================================================== *)
(** ** Facts about the string operations *)
(* ================================================================== *)

Section Occurrences.

Lemma prefix_append (a b : string) : String.prefix a (a ++ b) = true.
Proof.
  induction a as [|c a IH]; simpl.
  - destruct b; reflexivity.
  - destruct (ascii_dec c c) as [_ | Hne]; [exact IH | now elim Hne].
Qed.

Lemma prefix_append_right (a s post : string) :
  String.prefix a s = true -> String.prefix a (s ++ post) = true.
Proof.
  revert s. induction a as [|c a IH]; intros s H.
  - destruct (s ++ post); reflexivity.
  - destruct s as [|d s]; simpl in H; [discriminate|]. simpl.
    destruct (ascii_dec c d); [now apply IH | discriminate].
Qed.

Lemma contains_prefix (sub s : string) :
  String.prefix sub s = true -> PyStr.contains sub s = true.
Proof.
  intros H. destruct s; cbn [PyStr.contains]; [exact H|].
  rewrite H. reflexivity.
Qed.

Lemma contains_append_before (sub pre s : string) :
  PyStr.contains sub s = true -> PyStr.contains sub (pre ++ s) = true.
Proof.
  intros H. induction pre as [|c pre IH]; [exact H|].
  change (String c pre ++ s) with (String c (pre ++ s)).
  cbn [PyStr.contains]. rewrite IH. apply orb_true_r.
Qed.

Lemma contains_append_after (sub s post : string) :
  PyStr.contains sub s = true -> PyStr.contains sub (s ++ post) = true.
Proof.
  induction s as [|c s IH]; intros H.
  - simpl in H. destruct sub; [|discriminate H].
    apply contains_prefix. destruct (EmptyString ++ post); reflexivity.
  - cbn [PyStr.contains] in H. apply orb_prop in H.
    change (String c s ++ post) with (String c (s ++ post)).
    cbn [PyStr.contains]. destruct H as [H | H].
    + change (String c (s ++ post)) with (String c s ++ post).
      rewrite (prefix_append_right _ _ _ H). reflexivity.
    + rewrite (IH H). apply orb_true_r.
Qed.

Lemma contains_itself (s post : string) :
  PyStr.contains s (s ++ post) = true.
Proof.
  apply contains_prefix, prefix_append.
Qed.

(** Every part of a joined text occurs in it. *)
Lemma contains_joined (sep part : string) (parts : list string) :
  In part parts -> PyStr.contains part (PyStr.join sep parts) = true.
Proof.
  unfold PyStr.join.
  induction parts as [|x rest IH]; intros Hin; [destruct Hin|].
  destruct rest as [|y rest].
  - destruct Hin as [-> | []]. simpl.
    rewrite <- (contains_itself part ""). f_equal.
    clear. induction part; simpl; [reflexivity | now f_equal].
  - change (String.concat sep (x :: y :: rest))
      with (x ++ sep ++ String.concat sep (y :: rest)).
    destruct Hin as [-> | Hin].
    + apply contains_itself.
    + apply contains_append_before, contains_append_before.
      now apply IH.
Qed.

End Occurrences.

Section Splitting.

Variable sep : ascii.

Lemma split_nonempty (s : string) : PyStr.split s sep <> [].
Proof.
  destruct s as [|c r]; simpl; [discriminate|].
  destruct (Ascii.eqb c sep); [discriminate|].
  destruct (PyStr.split r sep); discriminate.
Qed.

(** A text without the separator is one piece. *)
Lemma split_without_sep (s : string) :
  PyStr.contains (String sep "") s = false -> PyStr.split s sep = [s].
Proof.
  induction s as [|c r IH]; intros H; [reflexivity|].
  cbn [PyStr.contains] in H. apply orb_false_elim in H. destruct H as [Hc Hr].
  cbn [PyStr.split]. destruct (Ascii.eqb_spec c sep) as [-> | Hne].
  - exfalso. simpl in Hc. destruct (ascii_dec sep sep) as [_ | Hn].
    + destruct r; discriminate Hc.
    + now apply Hn.
  - rewrite (IH Hr). reflexivity.
Qed.

(** Splitting at a separator splits both sides. *)
Lemma split_append_sep (a b : string) :
  PyStr.split (a ++ String sep b) sep
  = (PyStr.split a sep ++ PyStr.split b sep)%list.
Proof.
  induction a as [|c a IH].
  - cbn [append PyStr.split]. rewrite Ascii.eqb_refl. reflexivity.
  - change (String c a ++ String sep b) with (String c (a ++ String sep b)).
    cbn [PyStr.split]. destruct (Ascii.eqb c sep).
    + rewrite IH. reflexivity.
    + rewrite IH. pose proof (split_nonempty a) as Hne.
      destruct (PyStr.split a sep); [contradiction | reflexivity].
Qed.

(** Joining the pieces gives the text back. *)
Lemma join_split (s : string) :
  PyStr.join (String sep "") (PyStr.split s sep) = s.
Proof.
  unfold PyStr.join. induction s as [|c r IH]; [reflexivity|].
  cbn [PyStr.split]. pose proof (split_nonempty r) as Hne.
  destruct (Ascii.eqb_spec c sep) as [-> | _].
  - destruct (PyStr.split r sep) as [|p ps]; [contradiction|].
    change (String.concat (String sep "") ("" :: p :: ps))
      with (String sep (String.concat (String sep "") (p :: ps))).
    rewrite IH. reflexivity.
  - destruct (PyStr.split r sep) as [|p ps]; [contradiction|].
    destruct ps as [|q ps].
    + simpl in *. now rewrite IH.
    + change (String.concat (String sep "") (String c p :: q :: ps))
        with (String c (String.concat (String sep "") (p :: q :: ps))).
      rewrite IH. reflexivity.
Qed.

End Splitting.

(** A text in which [old] does not occur is left as it is. *)
Lemma replace_absent (s old new : string) :
  old <> "" ->
  PyStr.contains old s = false ->
  PyStr.replace s old new = s.
Proof.
  intros Hold. unfold PyStr.replace.
  assert (Hne : String.eqb old "" = false)
    by (destruct (String.eqb_spec old ""); [contradiction | reflexivity]).
  induction s as [|c r IH]; intros H; cbn [PyStr.replace_from]; rewrite Hne;
    [reflexivity|].
  cbn [PyStr.contains] in H. apply orb_false_elim in H. destruct H as [Hc Hr].
  rewrite Hc, (IH Hr). reflexivity.
Qed.

Import Py HfDbToInput.

Section ReferenceResolver.


(** The filename variable holds [None] or a string. *)
Definition textual (f : pyval) : Prop :=
  f = VNone \/ exists s, f = VStr s.


Lemma resolve_url_nonempty (dataset filename : string) :
  resolve_url dataset filename <> "".
Proof.
  unfold resolve_url. simpl. discriminate.
Qed.

Lemma placeholder_nonempty (file_index : Z) : placeholder file_index <> "".
Proof.
  unfold placeholder. simpl. discriminate.
Qed.

Lemma truthy_string (s : string) : truthy (VStr s) = true -> s <> "".
Proof.
  simpl. intros H ->. discriminate H.
Qed.

(** Lines 127-135 give a string that is not empty when [filename] is
    [None] or a string. *)
Lemma finish_textual (f : pyval) (dataset_name : string) (file_index : Z) :
  textual f ->
  exists s, finish f dataset_name file_index = VStr s /\ s <> "".
Proof.
  intros Hf. unfold finish.
  destruct (can_build_url f dataset_name).
  - eexists. split; [reflexivity | apply resolve_url_nonempty].
  - destruct (truthy f) eqn:Ht.
    + destruct Hf as [-> | [s ->]]; [discriminate Ht|].
      exists s. split; [reflexivity | now apply truthy_string].
    + eexists. split; [reflexivity | apply placeholder_nonempty].
Qed.



(** Code that prints nothing. *)
Definition silent {A} (m : io A) : Prop := fst m = [].

Lemma silent_ret {A} (a : A) : silent (ret a).
Proof. reflexivity. Qed.

Lemma silent_lift {A} (r : result A) : silent (lift r).
Proof. reflexivity. Qed.

Lemma silent_raise {A} (e : exn) : silent (@raise A e).
Proof. reflexivity. Qed.

Lemma silent_bind {A B} (m : io A) (k : A -> io B) :
  silent m -> (forall a, silent (k a)) -> silent (bind m k).
Proof.
  unfold silent, bind. destruct m as [out [a | e]]; simpl; intros -> Hk.
  - specialize (Hk a). destruct (k a) as [out' r]. simpl in *. now subst.
  - reflexivity.
Qed.

Ltac silence :=
  repeat first
    [ apply silent_ret
    | apply silent_lift
    | apply silent_raise
    | apply silent_bind; [| intros ?]
    | match goal with
      | |- silent (if ?c then _ else _) => destruct c
      | |- silent (match ?x with _ => _ end) => destruct x
      end ].

(** The guarded search never raises: either it prints nothing, or it
    prints one warning and gives the placeholder. *)
Lemma from_container_guarded_total (video_item : pyval) (file_index : Z) :
  exists out f,
    from_container_guarded video_item file_index = (out, Ok f)
    /\ (out = []
        \/ exists e, out = [WarnNoFilename e]
                     /\ f = VStr (placeholder file_index)).
Proof.
  unfold from_container_guarded.
  match goal with
  | |- context [try_except ?m _] =>
      assert (Hs : silent m) by silence;
      destruct m as [out [f | e]]
  end; unfold silent in Hs; simpl in Hs; subst out.
  - exists [], f. split; [reflexivity | now left].
  - eexists. eexists. split; [reflexivity|]. right. exists e.
    split; reflexivity.
Qed.

(** An object that reaches the guarded search of lines 67-82. *)
Definition reaches_guarded_search (video_item : pyval) : bool :=
  negb (is_some (hf_encoded_dict video_item))
  && hasattr video_item "container"
  && hasattr video_item "_hf_encoded"
  && match getattr video_item "container" with
     | Some container => negb (hasattr container "name")
     | None => false
     end
  && negb (has_c_file_name video_item).

Lemma guarded_reference_resolves (v : pyval) (ds : string) (i : Z) :
  reaches_guarded_search v = true ->
  exists out f,
    from_container_guarded v i = (out, Ok f)
    /\ get_video_url_from_hf v ds i = (out, Ok (finish f ds i)).
Proof.
  unfold reaches_guarded_search. intros H.
  repeat (apply andb_prop in H; destruct H as [H ?]).
  destruct (from_container_guarded_total v i) as [out [f [Hg _]]].
  exists out, f. split; [exact Hg|].
  unfold get_video_url_from_hf, locate.
  destruct v as [ | | | | | | t attrs]; try discriminate.
  cbn [is_http_url].
  destruct (hf_encoded_dict (VObj t attrs)); [discriminate|].
  match goal with
  | Hc : hasattr _ "container" = true, He : hasattr _ "_hf_encoded" = true
    |- _ => rewrite Hc, He
  end.
  cbn [andb]. unfold from_container, py_getattr.
  destruct (getattr (VObj t attrs) "container") as [c|]; [|discriminate].
  cbn [lift bind].
  destruct (hasattr c "name"); [discriminate|].
  destruct (has_c_file_name (VObj t attrs)); [discriminate|].
  rewrite Hg. cbn. rewrite !app_nil_r. reflexivity.
Qed.

(** The body of the [try] of lines 67-82, by itself. *)
Definition container_search (video_item : pyval) : io pyval :=
  (container <- lift (py_getattr video_item "container") ;;
   if hasattr container "name" then
     name <- lift (py_getattr container "name") ;;
     f <- lift (os_path_basename name) ;;
     ret (VStr f)
   else if hasattr container "metadata" then
     metadata <- lift (py_getattr container "metadata") ;;
     present <- lift (py_contains "filename" metadata) ;;
     if present : bool then lift (py_getitem metadata "filename")
     else ret VNone
   else if hasattr container "file" then
     file <- lift (py_getattr container "file") ;;
     if hasattr file "name" then
       name <- lift (py_getattr file "name") ;;
       f <- lift (os_path_basename name) ;;
       ret (VStr f)
     else ret (VStr (py_str file))
   else ret VNone)%io.

Lemma from_container_guarded_handles (video_item : pyval) (file_index : Z) :
  from_container_guarded video_item file_index
  = try_except (container_search video_item)
      (fun e => (print (WarnNoFilename e) ;;
                 ret (VStr (placeholder file_index)))%io).
Proof. reflexivity. Qed.

Lemma container_search_silent (video_item : pyval) :
  silent (container_search video_item).
Proof. unfold container_search. silence. Qed.

Definition is_text (v : pyval) : bool :=
  match v with
  | VStr _ => true
  | _ => false
  end.












(** What the guarded search leaves: without an error its result and no
    output; with an error [e] the warning about [e] and the
    placeholder. *)
Lemma from_container_guarded_cases (v : pyval) (i : Z) :
  match snd (container_search v) with
  | Ok f => from_container_guarded v i = ([], Ok f)
  | Raise e =>
      from_container_guarded v i
      = ([WarnNoFilename e], Ok (VStr (placeholder i)))
  end.
Proof.
  rewrite from_container_guarded_handles.
  pose proof (container_search_silent v) as Hs. unfold silent in Hs.
  destruct (container_search v) as [out [f | e]]; cbn in Hs; subst out;
    reflexivity.
Qed.





Lemma append_assoc (a b c : string) : (a ++ b) ++ c = a ++ b ++ c.
Proof.
  induction a as [|x a IH]; simpl; [reflexivity | now rewrite IH].
Qed.

(** The scheme is stripped from a path that holds it only in front. *)
Lemma replace_scheme (rest : string) :
  PyStr.contains "hf://" rest = false ->
  PyStr.replace ("hf://" ++ rest) "hf://" "" = rest.
Proof.
  intros H. unfold PyStr.replace. cbn.
  replace (String.prefix "" rest) with true by (destruct rest; reflexivity).
  apply (replace_absent rest "hf://" "" ltac:(discriminate) H).
Qed.

(** Lines 36-51 on [hf://datasets/<dataset-path>@<revision>/<filename>]. *)
Lemma from_hf_encoded_revision (encoded : list (string * pyval))
  (dataset_path revision filename : string) :
  assoc "path" encoded
  = Some (VStr ("hf://datasets/" ++ dataset_path ++ "@" ++ revision
                ++ "/" ++ filename)) ->
  PyStr.contains "@" dataset_path = false ->
  PyStr.contains "/" filename = false ->
  PyStr.contains "hf://" ("datasets/" ++ dataset_path ++ "@" ++ revision
                          ++ "/" ++ filename) = false ->
  from_hf_encoded encoded
  = ([], Ok (Returned (VStr (resolve_url dataset_path filename)))).
Proof.
  intros Hpath Hat Hslash Hscheme.
  unfold from_hf_encoded. rewrite Hpath.
  change ("hf://datasets/" ++ dataset_path ++ "@" ++ revision ++ "/"
          ++ filename)
    with ("hf://" ++ "datasets/" ++ dataset_path ++ "@" ++ revision ++ "/"
          ++ filename).
  unfold PyStr.startswith. rewrite prefix_append.
  rewrite (replace_scheme _ Hscheme).
  change ("datasets/" ++ dataset_path ++ "@" ++ revision ++ "/" ++ filename)
    with ("datasets" ++ String "/" (dataset_path ++ "@" ++ revision ++ "/"
                                    ++ filename)).
  rewrite split_append_sep.
  replace (dataset_path ++ "@" ++ revision ++ "/" ++ filename)
    with ((dataset_path ++ "@" ++ revision) ++ String "/" filename)
    by (rewrite !append_assoc; reflexivity).
  rewrite split_append_sep, (split_without_sep "/" filename Hslash).
  change (PyStr.split "datasets" "/") with ["datasets"].
  cbn [app tl].
  assert (Hlen : (3 <=? length ("datasets"
                                :: PyStr.split (dataset_path ++ "@" ++ revision) "/"
                                ++ [filename]))%nat = true).
  { apply Nat.leb_le. cbn [length]. rewrite length_app. cbn [length].
    pose proof (split_nonempty "/" (dataset_path ++ "@" ++ revision)).
    destruct (PyStr.split (dataset_path ++ "@" ++ revision) "/");
      [contradiction | cbn [length]; lia]. }
  rewrite Hlen, removelast_last, join_split.
  assert (Hlast : last ("datasets"
                        :: PyStr.split (dataset_path ++ "@" ++ revision) "/"
                        ++ [filename]) "" = filename).
  { change ("datasets" :: ?l ++ [filename])%list
      with ((("datasets" :: l) ++ [filename])%list). apply last_last. }
  rewrite Hlast.
  rewrite (contains_append_before "@" dataset_path ("@" ++ revision))
    by apply contains_itself.
  change (dataset_path ++ "@" ++ revision)
    with (dataset_path ++ String "@" revision).
  rewrite split_append_sep, (split_without_sep "@" dataset_path Hat).
  reflexivity.
Qed.

(** C2. For an object whose [_hf_encoded] dictionary has the path
    [hf://datasets/alice/myset@abcd123/clip7.mp4], the resolver returns
    [https://huggingface.co/datasets/alice/myset/resolve/main/clip7.mp4],
    whatever the other attributes, the dataset name and the index.  More
    generally a path [hf://datasets/<dataset-path>@<revision>/<filename>]
    (no [@] in the dataset path, no [/] in the filename, the scheme only in
    front) gives
    [https://huggingface.co/datasets/<dataset-path>/resolve/main/<filename>]. *)
Theorem hf_encoded_path_resolves
  (text : string) (attrs encoded : list (string * pyval))
  (ds : string) (i : Z) :
  assoc "_hf_encoded" attrs = Some (VDict encoded) ->
  (assoc "path" encoded
   = Some (VStr "hf://datasets/alice/myset@abcd123/clip7.mp4") ->
   get_video_url_from_hf (VObj text attrs) ds i
   = ([], Ok (VStr "https://huggingface.co/datasets/alice/myset/resolve/main/clip7.mp4")))
  /\ (forall dataset_path revision filename : string,
        assoc "path" encoded
        = Some (VStr ("hf://datasets/" ++ dataset_path ++ "@" ++ revision
                      ++ "/" ++ filename)) ->
        PyStr.contains "@" dataset_path = false ->
        PyStr.contains "/" filename = false ->
        PyStr.contains "hf://" ("datasets/" ++ dataset_path ++ "@" ++ revision
                                ++ "/" ++ filename) = false ->
        get_video_url_from_hf (VObj text attrs) ds i
        = ([], Ok (VStr ("https://huggingface.co/datasets/" ++ dataset_path
                         ++ "/resolve/main/" ++ filename)))).
Proof.
  intros Hattr.
  assert (Hget : get_video_url_from_hf (VObj text attrs) ds i
                 = (found <- from_hf_encoded encoded ;;
                    match found with
                    | Returned v => ret v
                    | Named filename => ret (finish filename ds i)
                    end)%io).
  { unfold get_video_url_from_hf, locate, hf_encoded_dict.
    cbn [is_http_url getattr]. rewrite Hattr. reflexivity. }
  rewrite Hget. split.
  - intros Hpath. unfold from_hf_encoded. rewrite Hpath. reflexivity.
  - intros dataset_path revision filename Hpath Hat Hslash Hscheme.
    rewrite (from_hf_encoded_revision encoded dataset_path revision filename
               Hpath Hat Hslash Hscheme).
    reflexivity.
Qed.

(** C3. Whenever the chain of cases ends with a filename, the dataset name
    is not empty, and the filename is not empty, is not ['None'] and does
    not hold [<none>] in any case of letters, the resolver returns
    [https://huggingface.co/datasets/<dataset_name>/resolve/main/<filename>];
    so [clip9.mp4] with [alice/myset] gives
    [https://huggingface.co/datasets/alice/myset/resolve/main/clip9.mp4]. *)
Theorem filename_combined_with_dataset :
  (forall (v : pyval) (ds : string) (i : Z) (out : list event) (f : pyval),
      locate v i = (out, Ok (Named f)) ->
      truthy f = true ->
      ds <> "" ->
      not_None_text f = true ->
      PyStr.contains "<none>" (PyStr.lower (py_str f)) = false ->
      get_video_url_from_hf v ds i
      = (out, Ok (VStr ("https://huggingface.co/datasets/" ++ ds
                        ++ "/resolve/main/" ++ py_str f))))
  /\ (forall i : Z,
        locate (VStr "clip9.mp4") i = ([], Ok (Named (VStr "clip9.mp4")))
        /\ get_video_url_from_hf (VStr "clip9.mp4") "alice/myset" i
           = ([], Ok (VStr "https://huggingface.co/datasets/alice/myset/resolve/main/clip9.mp4"))).
Proof.
  split.
  - intros v ds i out f Hloc Ht Hds Hnone Hsent.
    unfold get_video_url_from_hf. rewrite Hloc. cbn [bind ret].
    rewrite app_nil_r. unfold finish, can_build_url.
    rewrite Ht, Hnone, Hsent.
    destruct (String.eqb_spec ds ""); [contradiction|]. reflexivity.
  - intros i. split; reflexivity.
Qed.

End ReferenceResolver.

Definition guarded_example : pyval :=
  VObj "<VideoReader>"
       [("container", VObj "<container>" [("metadata", VNone)]);
        ("_hf_encoded", VNone)].



Example guarded_example_resolved :
  get_video_url_from_hf guarded_example "alice/myset" 3
  = ([WarnNoFilename TypeError],
     Ok (VStr "https://huggingface.co/datasets/alice/myset/resolve/main/video_3.mp4")).
Proof. reflexivity. Qed.

Lemma hf_encoded_path_resolves_witness :
  get_video_url_from_hf
    (VObj "<VideoReader>"
          [("container", VNone);
           ("_hf_encoded",
            VDict [("bytes", VNone);
                   ("path", VStr "hf://datasets/alice/myset@abcd123/clip7.mp4")])])
    "bob/other" 12
  = ([], Ok (VStr "https://huggingface.co/datasets/alice/myset/resolve/main/clip7.mp4")).
Proof.
  apply (proj1 (hf_encoded_path_resolves "<VideoReader>"
                  [("container", VNone);
                   ("_hf_encoded",
                    VDict [("bytes", VNone);
                           ("path", VStr "hf://datasets/alice/myset@abcd123/clip7.mp4")])]
                  [("bytes", VNone);
                   ("path", VStr "hf://datasets/alice/myset@abcd123/clip7.mp4")]
                  "bob/other" 12 eq_refl));
    reflexivity.
Defined.

Example hf_encoded_revision_example :
  get_video_url_from_hf
    (VObj "<VideoReader>"
          [("_hf_encoded",
            VDict [("path", VStr "hf://datasets/bob/films@refs/pr/7/reel.webm")])])
    "" 0
  = ([], Ok (VStr "https://huggingface.co/datasets/bob/films/resolve/main/reel.webm")).
Proof. reflexivity. Qed.

Lemma filename_combined_with_dataset_witness :
  get_video_url_from_hf (VDict [("path", VStr "/data/clips/clip9.mp4")])
                        "alice/myset" 0
  = ([], Ok (VStr "https://huggingface.co/datasets/alice/myset/resolve/main/clip9.mp4")).
Proof.
  apply (proj1 filename_combined_with_dataset
           (VDict [("path", VStr "/data/clips/clip9.mp4")]) "alice/myset" 0
           [] (VStr "clip9.mp4"));
    try reflexivity.
  discriminate.
Defined.

(* ================================================================== *)
(** ** Properties of the manifest builder *)
(* ================================================================== *)

Section ManifestBuilder.

Variables (dataset_name video_column : string).
Variable label_column : option string.
Variable max_items : option Z.
Variable default_label : string.
Variable use_label : option string.

(** How the processing of record [item], number [i], ends. *)
Definition item_result (i : Z) (item : pyval) : result entry :=
  snd (process_item dataset_name video_column label_column default_label
                    use_label i item).

(** The entries of the records that do not fail, in the order of the
    records; the first record has number [i]. *)
Fixpoint kept (items : list pyval) (i : Z) : list entry :=
  match items with
  | [] => []
  | item :: rest =>
      match item_result i item with
      | Ok e => e :: kept rest (i + 1)
      | Raise _ => kept rest (i + 1)
      end
  end.

(** The records that fail: their numbers and exceptions. *)
Fixpoint failures (items : list pyval) (i : Z) : list (Z * exn) :=
  match items with
  | [] => []
  | item :: rest =>
      match item_result i item with
      | Ok _ => failures rest (i + 1)
      | Raise e => (i, e) :: failures rest (i + 1)
      end
  end.

(** The records the loop processes when the first of [items] has number
    [i]: all of them, or those before the limit. *)
Definition iterated (i : Z) (items : list pyval) : list pyval :=
  match max_items with
  | Some m => if m =? 0 then items else firstn (Z.to_nat (m - i)) items
  | None => items
  end.

Lemma kept_failures_length (items : list pyval) (i : Z) :
  (length (kept items i) + length (failures items i) = length items)%nat.
Proof.
  revert i. induction items as [|item rest IH]; intros i; simpl.
  - reflexivity.
  - destruct (item_result i item); simpl; rewrite <- (IH (i + 1)); lia.
Qed.

Lemma failures_nth (items : list pyval) (i : Z) (n : nat) (item : pyval)
  (e : exn) :
  nth_error items n = Some item ->
  item_result (i + Z.of_nat n) item = Raise e ->
  In (i + Z.of_nat n, e) (failures items i).
Proof.
  revert i n. induction items as [|x rest IH]; intros i n Hn He.
  - destruct n; discriminate Hn.
  - destruct n as [|n]; simpl in Hn.
    + inversion Hn; subst x. simpl. rewrite Z.add_0_r in *.
      rewrite He. now left.
    + replace (i + Z.of_nat (S n)) with (i + 1 + Z.of_nat n) in * by lia.
      simpl. specialize (IH (i + 1) n Hn He).
      destruct (item_result i x); [exact IH | now right].
Qed.

Lemma iterated_stop (i : Z) (items : list pyval) :
  limit_reached max_items i = true -> iterated i items = [].
Proof.
  unfold limit_reached, iterated. destruct max_items as [m|]; [|discriminate].
  intros H. apply andb_prop in H. destruct H as [Hm Hle].
  destruct (m =? 0); [discriminate|].
  apply Z.leb_le in Hle. replace (Z.to_nat (m - i)) with 0%nat by lia.
  reflexivity.
Qed.

Lemma iterated_step (i : Z) (item : pyval) (rest : list pyval) :
  limit_reached max_items i = false ->
  iterated i (item :: rest) = item :: iterated (i + 1) rest.
Proof.
  unfold limit_reached, iterated. destruct max_items as [m|]; [|reflexivity].
  destruct (m =? 0); [reflexivity|]. simpl. intros Hle.
  apply Z.leb_gt in Hle.
  replace (Z.to_nat (m - i)) with (S (Z.to_nat (m - (i + 1)))) by lia.
  reflexivity.
Qed.

Lemma loop_body_stop (results : list entry) (i : Z) (item : pyval) :
  limit_reached max_items i = true ->
  exists m,
    max_items = Some m
    /\ loop_body dataset_name video_column label_column max_items
                 default_label use_label results i item
       = ([ReachedMaxItems m], Ok Break).
Proof.
  intros H. unfold loop_body. rewrite H.
  destruct max_items as [m|]; [|discriminate H].
  exists m. split; reflexivity.
Qed.

Lemma loop_body_next (results : list entry) (i : Z) (item : pyval) :
  limit_reached max_items i = false ->
  exists out,
    loop_body dataset_name video_column label_column max_items
              default_label use_label results i item
    = (out, Ok (Next match item_result i item with
                     | Ok e => (results ++ [e])%list
                     | Raise _ => results
                     end))
    /\ forall e, item_result i item = Raise e ->
                 In (ErrorProcessingItem i e) out.
Proof.
  intros H. unfold loop_body, item_result. rewrite H.
  destruct (process_item dataset_name video_column label_column
                         default_label use_label i item) as [out [e | e]].
  - cbn [bind try_except snd].
    destruct ((i + 1) mod 10 =? 0); cbn; eexists;
      (split; [reflexivity | discriminate]).
  - cbn. eexists. split; [reflexivity|].
    intros e' He'. inversion He'; subst. apply in_or_app. right. now left.
Qed.

(** The loop never raises: it gives the results so far, then the entries
    of the records processed that do not fail; every failing record is
    printed with its number; a limit that leaves records out is printed. *)
Lemma loop_spec (items : list pyval) :
  forall (i : Z) (results : list entry),
  exists out,
    loop dataset_name video_column label_column max_items default_label
         use_label items i results
    = (out, Ok (results ++ kept (iterated i items) i)%list)
    /\ (forall k e, In (k, e) (failures (iterated i items) i) ->
                    In (ErrorProcessingItem k e) out)
    /\ (forall m, max_items = Some m ->
                  (length (iterated i items) < length items)%nat ->
                  In (ReachedMaxItems m) out).
Proof.
  induction items as [|item rest IH]; intros i results.
  - exists []. cbn [loop].
    assert (Hit : iterated i [] = []).
    { unfold iterated. destruct max_items as [m|]; [|reflexivity].
      destruct (m =? 0); [reflexivity | apply firstn_nil]. }
    rewrite Hit. cbn [kept failures]. rewrite app_nil_r.
    split; [reflexivity|]. split.
    + intros k e [].
    + intros m _ Hlt. simpl in Hlt. lia.
  - cbn [loop].
    destruct (limit_reached max_items i) eqn:Hlim.
    + destruct (loop_body_stop results i item Hlim) as [m [Hm ->]].
      rewrite (iterated_stop i (item :: rest) Hlim).
      cbn [kept failures bind ret]. rewrite !app_nil_r.
      eexists. split; [reflexivity|]. split.
      * intros k e [].
      * intros m' Hm' _. rewrite Hm in Hm'. inversion Hm'; subst.
        now left.
    + destruct (loop_body_next results i item Hlim) as [out [-> Herr]].
      rewrite (iterated_step i item rest Hlim).
      cbn [kept failures bind length].
      destruct (IH (i + 1)
                   match item_result i item with
                   | Ok e => (results ++ [e])%list
                   | Raise _ => results
                   end) as [out' [-> [Hfail Hmax]]].
      eexists. split; [|split].
      * destruct (item_result i item); [|reflexivity].
        rewrite <- app_assoc. reflexivity.
      * intros k e Hin. apply in_or_app.
        destruct (item_result i item) as [e0 | e0] eqn:Hres.
        -- right. now apply Hfail.
        -- destruct Hin as [Heq | Hin].
           ++ inversion Heq; subst. left. now apply Herr.
           ++ right. now apply Hfail.
      * intros m Hm Hlt. apply in_or_app. right. apply (Hmax m Hm). lia.
Qed.

Lemma missing_video_field_fails (i : Z) (kvs : list (string * pyval)) :
  assoc video_column kvs = None ->
  item_result i (VDict kvs) = Raise (KeyError video_column).
Proof.
  intros H. unfold item_result, process_item, py_getitem. rewrite H.
  reflexivity.
Qed.

(** Once the split is found and the columns are accepted, the builder
    returns the entries of the records processed that do not fail. *)
Lemma extract_spec (dataset : dataset) (split : string)
  (requested_label_column change_label : option string)
  (out1 out2 : list event) (data : table) :
  select_split dataset split = (out1, Ok data) ->
  check_columns data video_column requested_label_column
  = (out2, Ok label_column) ->
  use_label = (if given change_label then change_label else None) ->
  exists out,
    extract_videos_from_dataset dataset dataset_name video_column
      requested_label_column split max_items default_label change_label
    = (out, Ok (kept (iterated 0 (rows data)) 0))
    /\ (forall k e, In (k, e) (failures (iterated 0 (rows data)) 0) ->
                    In (ErrorProcessingItem k e) out)
    /\ (forall m, max_items = Some m ->
                  (length (iterated 0 (rows data)) < length (rows data))%nat ->
                  In (ReachedMaxItems m) out).
Proof.
  intros Hsplit Hcols Huse.
  destruct (loop_spec (rows data) 0 []) as [out [Hloop [Hfail Hmax]]].
  unfold extract_videos_from_dataset.
  rewrite Hsplit. cbn [bind]. rewrite Hcols. cbn [bind].
  assert (Hlabel :
    exists o,
      (if given change_label
       then (print (UsingOverrideLabel (text change_label)) ;;
             ret change_label)%io
       else ret None) = (o, Ok use_label)).
  { rewrite Huse. destruct (given change_label); eexists; reflexivity. }
  destruct Hlabel as [o ->].
  destruct (has_len data); cbn [print bind]; rewrite Hloop;
    (eexists; split; [reflexivity|]; split;
     [ intros k e Hin; repeat (apply in_or_app; right); now apply Hfail
     | intros m Hm Hlt; repeat (apply in_or_app; right); now apply Hmax ]).
Qed.

(** C4. In dataset mode, once the split is found and the columns are
    accepted, the builder never raises.  A record whose processing raises
    (a record without the video field raises [KeyError]) is printed with
    its number and skipped; the records after it are processed; the
    entries returned are those of the records processed that do not fail,
    in order, so their number is the number of records processed minus the
    number of failing records. *)
Theorem failing_records_are_skipped (dataset : dataset) (split : string)
  (requested_label_column change_label : option string)
  (out1 out2 : list event) (data : table) :
  select_split dataset split = (out1, Ok data) ->
  check_columns data video_column requested_label_column
  = (out2, Ok label_column) ->
  use_label = (if given change_label then change_label else None) ->
  let records := iterated 0 (rows data) in
  exists out,
    extract_videos_from_dataset dataset dataset_name video_column
      requested_label_column split max_items default_label change_label
    = (out, Ok (kept records 0))
    /\ length (kept records 0)
       = (length records - length (failures records 0))%nat
    /\ (forall n item e,
          nth_error records n = Some item ->
          item_result (Z.of_nat n) item = Raise e ->
          In (ErrorProcessingItem (Z.of_nat n) e) out)
    /\ (forall i kvs,
          assoc video_column kvs = None ->
          item_result i (VDict kvs) = Raise (KeyError video_column)).
Proof.
  intros Hsplit Hcols Huse records.
  destruct (extract_spec dataset split requested_label_column change_label
              out1 out2 data Hsplit Hcols Huse) as [out [Hres [Hfail _]]].
  exists out. split; [exact Hres|]. split; [|split].
  - pose proof (kept_failures_length records 0). lia.
  - intros n item e Hn He. apply Hfail.
    apply (failures_nth records 0 n item e Hn He).
  - apply missing_video_field_fails.
Qed.

(** C8, as the code has it. With [max_items = 3] on a split of 10 records,
    the builder processes the first 3 records and no other, prints that
    the limit is reached and returns without an exception; it returns the
    entries of those of the first 3 records that do not fail, in order:
    exactly 3 entries when none of them fails. *)
Theorem max_items_keeps_first_records (dataset : dataset) (split : string)
  (requested_label_column change_label : option string)
  (out1 out2 : list event) (data : table) :
  select_split dataset split = (out1, Ok data) ->
  check_columns data video_column requested_label_column
  = (out2, Ok label_column) ->
  use_label = (if given change_label then change_label else None) ->
  max_items = Some 3 ->
  length (rows data) = 10%nat ->
  exists out,
    extract_videos_from_dataset dataset dataset_name video_column
      requested_label_column split max_items default_label change_label
    = (out, Ok (kept (firstn 3 (rows data)) 0))
    /\ In (ReachedMaxItems 3) out
    /\ (forall r0 r1 r2 rest e0 e1 e2,
          rows data = r0 :: r1 :: r2 :: rest ->
          item_result 0 r0 = Ok e0 ->
          item_result 1 r1 = Ok e1 ->
          item_result 2 r2 = Ok e2 ->
          kept (firstn 3 (rows data)) 0 = [e0; e1; e2]).
Proof.
  intros Hsplit Hcols Huse Hmax Hlen.
  destruct (extract_spec dataset split requested_label_column change_label
              out1 out2 data Hsplit Hcols Huse) as [out [Hres [_ Hlim]]].
  assert (Hit : iterated 0 (rows data) = firstn 3 (rows data)).
  { unfold iterated. rewrite Hmax. reflexivity. }
  rewrite Hit in *.
  exists out. split; [exact Hres|]. split.
  - apply (Hlim 3 Hmax). rewrite length_firstn. lia.
  - intros r0 r1 r2 rest e0 e1 e2 Hrows H0 H1 H2. rewrite Hrows.
    cbn [firstn kept]. rewrite H0. cbn [Z.add Pos.add].
    change (0 + 1) with 1. rewrite H1. change (1 + 1) with 2.
    rewrite H2. reflexivity.
Qed.

End ManifestBuilder.

Lemma lookup_split_absent (split : string) (splits : list (string * table)) :
  ~ In split (map fst splits) -> lookup_split split splits = None.
Proof.
  induction splits as [|[name data] rest IH]; simpl; intros Hnot.
  - reflexivity.
  - destruct (String.eqb_spec split name) as [-> | _].
    + exfalso. apply Hnot. now left.
    + apply IH. intros Hin. apply Hnot. now right.
Qed.


(** C7. When the dataset is a dictionary of splits and the split asked for
    is not one of its keys, the builder raises [ValueError] with a message
    that holds the text of every split name, and nothing has been printed
    or processed before. *)
Theorem absent_split_raises (splits : list (string * table))
  (split dataset_name video_column : string) (label_column : option string)
  (max_items : option Z) (default_label : string)
  (change_label : option string) :
  ~ In split (map fst splits) ->
  exists msg,
    extract_videos_from_dataset (SplitDict splits) dataset_name video_column
      label_column split max_items default_label change_label
    = ([], Raise (ValueError msg))
    /\ msg = "Split '" ++ split ++ "' not found. Available splits: "
             ++ py_str (VList (map VStr (map fst splits)))
    /\ forall name, In name (map fst splits) ->
                    PyStr.contains (PyStr.repr name) msg = true.
Proof.
  intros Habsent. eexists. split; [|split; [reflexivity|]].
  - unfold extract_videos_from_dataset, select_split.
    rewrite (lookup_split_absent split splits Habsent). reflexivity.
  - intros name Hin.
    do 3 apply contains_append_before.
    cbn [py_str py_repr].
    apply contains_append_before, contains_append_after, contains_joined.
    rewrite map_map. cbn [py_repr].
    apply in_map_iff. exists name. split; [reflexivity | exact Hin].
Qed.

Definition example_table (rows : list pyval) : table :=
  {| column_names := None; has_len := false; rows := rows |}.

Definition record_of (video : string) : pyval := VDict [("video", VStr video)].

Lemma absent_split_raises_witness :
  exists msg,
    extract_videos_from_dataset
      (SplitDict [("test", example_table [record_of "a.mp4"]);
                  ("validation", example_table [])])
      "alice/myset" "video" None "train" None "default_label" None
    = ([], Raise (ValueError msg))
    /\ msg = "Split 'train' not found. Available splits: ['test', 'validation']".
Proof.
  destruct (absent_split_raises
              [("test", example_table [record_of "a.mp4"]);
               ("validation", example_table [])]
              "train" "alice/myset" "video" None None "default_label" None)
    as [msg [Hraise [Hmsg _]]].
  - simpl. intros [H | [H | []]]; discriminate H.
  - exists msg. split; [exact Hraise | exact Hmsg].
Defined.

(** Ten records, the first without the video field. *)
Definition ten_records : list pyval :=
  VDict [("caption", VStr "no video here")]
  :: map record_of ["b.mp4"; "c.mp4"; "d.mp4"; "e.mp4"; "f.mp4";
                    "g.mp4"; "h.mp4"; "i.mp4"; "j.mp4"].

Lemma failing_records_are_skipped_witness :
  exists out,
    extract_videos_from_dataset (OneSplit (example_table ten_records))
      "" "video" None "train" None "default_label" None
    = (out,
       Ok (map (fun v => {| video := VStr v; label := "default_label" |})
               ["b.mp4"; "c.mp4"; "d.mp4"; "e.mp4"; "f.mp4";
                "g.mp4"; "h.mp4"; "i.mp4"; "j.mp4"]))
    /\ In (ErrorProcessingItem 0 (KeyError "video")) out.
Proof.
  destruct (failing_records_are_skipped "" "video" None None "default_label"
              None (OneSplit (example_table ten_records)) "train" None None
              [] [] (example_table ten_records) eq_refl eq_refl eq_refl)
    as [out [Hres [_ [Hlog _]]]].
  exists out. split; [exact Hres|].
  apply (Hlog 0%nat (VDict [("caption", VStr "no video here")])); reflexivity.
Defined.

(** C8 as stated fails: with [max_items = 3] and ten records of which the
    first has no video field, two entries are returned. *)
Lemma max_items_with_failing_record :
  length ten_records = 10%nat
  /\ extract_videos_from_dataset (OneSplit (example_table ten_records))
       "" "video" None "train" (Some 3) "default_label" None
     = ([ProcessingStreaming; ErrorProcessingItem 0 (KeyError "video");
         ReachedMaxItems 3],
        Ok [ {| video := VStr "b.mp4"; label := "default_label" |};
             {| video := VStr "c.mp4"; label := "default_label" |} ]).
Proof. split; reflexivity. Qed.

(** Ten records that all hold a video. *)
Definition ten_videos : list pyval :=
  map record_of ["a.mp4"; "b.mp4"; "c.mp4"; "d.mp4"; "e.mp4";
                 "f.mp4"; "g.mp4"; "h.mp4"; "i.mp4"; "j.mp4"].

Lemma max_items_keeps_first_records_witness :
  exists out,
    extract_videos_from_dataset (OneSplit (example_table ten_videos))
      "" "video" None "train" (Some 3) "default_label" None
    = (out,
       Ok [ {| video := VStr "a.mp4"; label := "default_label" |};
            {| video := VStr "b.mp4"; label := "default_label" |};
            {| video := VStr "c.mp4"; label := "default_label" |} ])
    /\ In (ReachedMaxItems 3) out.
Proof.
  destruct (max_items_keeps_first_records "" "video" None (Some 3)
              "default_label" None (OneSplit (example_table ten_videos))
              "train" None None [] [] (example_table ten_videos)
              eq_refl eq_refl eq_refl eq_refl eq_refl)
    as [out [Hres [Hlog Hthree]]].
  exists out. split; [|exact Hlog].
  rewrite Hres.
  rewrite (Hthree (record_of "a.mp4") (record_of "b.mp4") (record_of "c.mp4")
                  (skipn 3 ten_videos)
                  {| video := VStr "a.mp4"; label := "default_label" |}
                  {| video := VStr "b.mp4"; label := "default_label" |}
                  {| video := VStr "c.mp4"; label := "default_label" |}
                  eq_refl eq_refl eq_refl eq_refl).
  reflexivity.
Defined.

(* ================================================================== *)
(** ** Properties of the label rewriter *)
(* ================================================================== *)

Section LabelRewriter.

Variable new_label : string.

Lemma assoc_set_same (k : string) (v : pyval) (kvs : list (string * pyval)) :
  assoc k (assoc_set k v kvs) = Some v.
Proof.
  induction kvs as [|[k' v'] rest IH]; simpl.
  - rewrite String.eqb_refl. reflexivity.
  - destruct (String.eqb k k') eqn:Hk; simpl; rewrite Hk; [reflexivity | exact IH].
Qed.

Lemma assoc_set_other (k k0 : string) (v : pyval)
  (kvs : list (string * pyval)) :
  k0 <> k -> assoc k0 (assoc_set k v kvs) = assoc k0 kvs.
Proof.
  intros Hne. induction kvs as [|[k' v'] rest IH]; simpl.
  - destruct (String.eqb_spec k0 k); [contradiction | reflexivity].
  - destruct (String.eqb_spec k k') as [<- | Hk]; simpl.
    + destruct (String.eqb_spec k0 k); [contradiction | reflexivity].
    + rewrite IH. reflexivity.
Qed.

Lemma assoc_set_keys (k : string) (v : pyval) (kvs : list (string * pyval)) :
  assoc k kvs <> None -> map fst (assoc_set k v kvs) = map fst kvs.
Proof.
  induction kvs as [|[k' v'] rest IH]; simpl; intros H.
  - contradiction.
  - destruct (String.eqb k k'); simpl; [reflexivity|].
    rewrite (IH H). reflexivity.
Qed.

Lemma assoc_set_length (k : string) (v : pyval) (kvs : list (string * pyval)) :
  assoc k kvs <> None -> length (assoc_set k v kvs) = length kvs.
Proof.
  intros H. rewrite <- (length_map fst), (assoc_set_keys k v kvs H).
  apply length_map.
Qed.

(** An entry with a [label] field: the field is set, the others stay. *)
Lemma rewrite_label_present (kvs : list (string * pyval)) :
  assoc "label" kvs <> None ->
  exists kvs',
    rewrite_label new_label (VDict kvs) = VDict kvs'
    /\ assoc "label" kvs' = Some (VStr new_label)
    /\ map fst kvs' = map fst kvs
    /\ forall k, k <> "label" -> assoc k kvs' = assoc k kvs.
Proof.
  intros H. exists (assoc_set "label" (VStr new_label) kvs).
  split; [|split; [|split]].
  - unfold rewrite_label. destruct (assoc "label" kvs); [reflexivity|].
    contradiction.
  - apply assoc_set_same.
  - now apply assoc_set_keys.
  - intros k Hk. now apply assoc_set_other.
Qed.

(** An entry without a [label] field, or that is not a dictionary, is
    left as it is. *)
Lemma rewrite_label_absent (item : pyval) :
  (forall kvs, item = VDict kvs -> assoc "label" kvs = None) ->
  rewrite_label new_label item = item.
Proof.
  intros H. destruct item as [ | | | | | kvs | ]; try reflexivity.
  unfold rewrite_label. rewrite (H kvs eq_refl). reflexivity.
Qed.

(** C5. The label rewriter, on a loaded manifest of N entries and a new
    label, gives N entries in the same order: an entry with a [label]
    field has it set to the new label and keeps its fields, in their
    order, with every value other than that of [label] (so that of
    [video]); an entry without a [label] field is the same as before. *)
Theorem label_rewriter_keeps_entries (items : list pyval) :
  exists items',
    rewrite_labels (VList items) new_label = Ok (VList items')
    /\ length items' = length items
    /\ forall n item,
        nth_error items n = Some item ->
        exists item',
          nth_error items' n = Some item'
          /\ (forall kvs,
                item = VDict kvs -> assoc "label" kvs <> None ->
                exists kvs',
                  item' = VDict kvs'
                  /\ assoc "label" kvs' = Some (VStr new_label)
                  /\ map fst kvs' = map fst kvs
                  /\ (forall k, k <> "label" -> assoc k kvs' = assoc k kvs)
                  /\ assoc "video" kvs' = assoc "video" kvs)
          /\ ((forall kvs, item = VDict kvs -> assoc "label" kvs = None) ->
              item' = item).
Proof.
  exists (map (rewrite_label new_label) items).
  split; [reflexivity|]. split; [apply length_map|].
  intros n item Hn. exists (rewrite_label new_label item).
  split; [|split].
  - rewrite nth_error_map, Hn. reflexivity.
  - intros kvs -> Hlabel.
    destruct (rewrite_label_present kvs Hlabel)
      as [kvs' [Hrw [Hset [Hkeys Hother]]]].
    exists kvs'. repeat split; try assumption.
    apply Hother. discriminate.
  - apply rewrite_label_absent.
Qed.

End LabelRewriter.

Example label_rewriter_example :
  rewrite_labels
    (VList [VDict [("video", VStr "a.mp4"); ("label", VStr "old")];
            VDict [("video", VStr "b.mp4")];
            VStr "stray";
            VDict [("label", VInt 3); ("video", VStr "c.mp4"); ("id", VInt 7)]])
    "X"
  = Ok (VList [VDict [("video", VStr "a.mp4"); ("label", VStr "X")];
               VDict [("video", VStr "b.mp4")];
               VStr "stray";
               VDict [("label", VStr "X"); ("video", VStr "c.mp4");
                      ("id", VInt 7)]]).
Proof. reflexivity. Qed.

(* ================================================================== *)
(** ** Properties of the command *)
(* ================================================================== *)

Section CommandLine.

Variable load_dataset : string -> option string -> result dataset.

(** The same command line without [--change_label]. *)
Definition without_change_label (a : args.t) : args.t :=
  {| args.database := args.database a;
     args.output := args.output a;
     args.label := args.label a;
     args.change_label := None;
     args.video_column := args.video_column a;
     args.label_column := args.label_column a;
     args.split := args.split a;
     args.subset := args.subset a;
     args.streaming := args.streaming a;
     args.max_items := args.max_items a |}.

Lemma cbind_cret {A B} (x : A) (k : A -> cmd B) (w : world) :
  cbind (cret x) k w = k x w.
Proof.
  unfold cbind, cret, ret. destruct (k x w) as [w2 [out r]]. reflexivity.
Qed.

Lemma cbind_print {B} (ev : event) (k : unit -> cmd B) (w : world) :
  cbind (run_io (print ev)) k w
  = (fst (k tt w), ((ev :: fst (snd (k tt w)))%list, snd (snd (k tt w)))).
Proof.
  unfold cbind, run_io, print. destruct (k tt w) as [w2 [out r]]. reflexivity.
Qed.

(** [main] never lets an exception out: what its body raises is printed
    and [1] is returned. *)
Lemma main_catches (a : args.t) (w : world) :
  exists w' out r, main load_dataset a w = (w', (out, Ok r)).
Proof.
  unfold main, ctry_except.
  match goal with
  | |- context [match ?m with _ => _ end] => destruct m as [w1 [out [r | e]]]
  end.
  - now exists w1, out, r.
  - rewrite cbind_print. cbn. eexists. eexists. eexists. reflexivity.
Qed.

Lemma main_raised_returns_1 (a : args.t) (w w1 : world) (out : list event)
  (e : exn) :
  cbind (relabel_requested a)
        (fun relabel : bool =>
           if relabel then rewrite_existing a
           else build_manifest load_dataset a) w
  = (w1, (out, Raise e)) ->
  main load_dataset a w = (w1, ((out ++ [ErrorTop e])%list, Ok (Some 1))).
Proof.
  intros H. unfold main, ctry_except. rewrite H. reflexivity.
Qed.

(** With no usable [--change_label], or no output file, the body of [main]
    is the build of the manifest. *)
Lemma main_builds (a : args.t) (w : world) :
  given (args.change_label a) = false \/ output_file w = Missing ->
  main load_dataset a w
  = ctry_except (build_manifest load_dataset a)
                (fun e => (run_io (print (ErrorTop e)) ;; cret (Some 1))%cmd) w.
Proof.
  intros H. unfold main, ctry_except, relabel_requested.
  destruct H as [H | H].
  - rewrite H, cbind_cret. reflexivity.
  - destruct (given (args.change_label a)); [|now rewrite cbind_cret].
    unfold cbind at 1. unfold path_exists. rewrite H. cbn [ret].
    destruct (build_manifest load_dataset a w) as [w2 [out [r | e]]];
      reflexivity.
Qed.

(** When no entry is extracted, [main] returns [1]. *)
Lemma main_no_entries_returns_1 (a : args.t) (w : world) (d : dataset)
  (out : list event) :
  given (args.change_label a) = false \/ output_file w = Missing ->
  given (args.database a) = true ->
  load_dataset (text (args.database a)) (args.subset a) = Ok d ->
  extract_videos_from_dataset d (text (args.database a))
    (args.video_column a) (args.label_column a) (args.split a)
    (args.max_items a) (args.label a) (args.change_label a)
  = (out, Ok []) ->
  exists out', main load_dataset a w = (w, (out', Ok (Some 1))).
Proof.
  intros Hpath Hdb Hload Hextract.
  rewrite (main_builds a w Hpath).
  unfold ctry_except, build_manifest. rewrite Hdb. cbn [negb].
  rewrite cbind_print.
  unfold cbind, run_io, lift, cret, ret, print.
  rewrite Hload, Hextract.
  destruct (given (args.subset a)); destruct d; cbn; eexists; reflexivity.
Qed.

(** C6, where the code departs from it.  When the labels of an existing
    file are not to be rewritten, the dataset loads, at least one entry is
    extracted and the output file is written, no [return] is reached:
    [main] returns [None], not [0].  (The run that rewrites labels returns
    [0], a run that extracts nothing returns [1], and so does a run whose
    body raises.) *)
Theorem main_written_returns_None (a : args.t) (w : world) (d : dataset)
  (out : list event) (e : entry) (es : list entry) :
  given (args.change_label a) = false \/ output_file w = Missing ->
  given (args.database a) = true ->
  load_dataset (text (args.database a)) (args.subset a) = Ok d ->
  extract_videos_from_dataset d (text (args.database a))
    (args.video_column a) (args.label_column a) (args.split a)
    (args.max_items a) (args.label a) (args.change_label a)
  = (out, Ok (e :: es)) ->
  output_file w <> IsDirectory ->
  writable w = true ->
  serializable (VList (map entry_json (e :: es))) = true ->
  exists out',
    main load_dataset a w
    = ({| output_file := Holds (Some (VList (map entry_json (e :: es))));
          writable := true |},
       (out', Ok None)).
Proof.
  intros Hpath Hdb Hload Hextract Hdir Hw Hser.
  rewrite (main_builds a w Hpath).
  unfold ctry_except, build_manifest. rewrite Hdb. cbn [negb].
  rewrite cbind_print.
  unfold cbind, run_io, lift, cret, ret, print, json_dump, print_all,
    label_distribution.
  rewrite Hload, Hextract, Hw, Hser.
  destruct (given (args.subset a)); destruct d;
    destruct (output_file w); try contradiction;
    cbn [fst snd]; unfold bind, print;
    match goal with
    | |- context [if ?c then _ else _] => destruct c
    end; cbn; eexists; reflexivity.
Qed.

Lemma assoc_set_serializable (k : string) (v : pyval)
  (kvs : list (string * pyval)) :
  serializable v = true ->
  forallb (fun kv => serializable (snd kv)) kvs = true ->
  forallb (fun kv => serializable (snd kv)) (assoc_set k v kvs) = true.
Proof.
  intros Hv. induction kvs as [|[k' v'] rest IH]; cbn [assoc_set forallb snd].
  - intros _. rewrite Hv. reflexivity.
  - intros H. apply andb_prop in H. destruct H as [Hv' Hrest].
    destruct (String.eqb k k'); cbn [forallb snd].
    + rewrite Hv, Hrest. reflexivity.
    + rewrite Hv', (IH Hrest). reflexivity.
Qed.

Lemma rewrite_label_serializable (new_label : string) (item : pyval) :
  serializable item = true ->
  serializable (rewrite_label new_label item) = true.
Proof.
  destruct item as [ | | | | | kvs | ]; try (intros H; exact H).
  unfold rewrite_label. destruct (is_some (assoc "label" kvs)); [|auto].
  cbn [serializable]. now apply assoc_set_serializable.
Qed.

(** With [--change_label] and an output file that holds a list of entries,
    [main] writes the entries back with the new label and returns [0]. *)
Lemma main_rewrites_and_returns_0 (a : args.t) (w : world)
  (items : list pyval) :
  given (args.change_label a) = true ->
  output_file w = Holds (Some (VList items)) ->
  writable w = true ->
  serializable (VList items) = true ->
  main load_dataset a w
  = ({| output_file :=
          Holds (Some (VList (map (rewrite_label (text (args.change_label a)))
                                  items)));
        writable := true |},
     ([FoundExisting (args.output a) (text (args.change_label a));
       UpdatedEntries (length items) (text (args.change_label a));
       JsonFileUpdated (args.output a)],
      Ok (Some 0))).
Proof.
  intros Hgiven Hfile Hw Hser.
  assert (Hser' :
    serializable (VList (map (rewrite_label (text (args.change_label a)))
                             items)) = true).
  { cbn [serializable] in *. rewrite forallb_forall in *.
    intros x Hx. apply in_map_iff in Hx. destruct Hx as [y [<- Hy]].
    apply rewrite_label_serializable. now apply Hser. }
  destruct w as [file can_write]. cbn [output_file writable] in Hfile, Hw.
  subst file can_write.
  unfold main, ctry_except, relabel_requested, rewrite_existing.
  rewrite Hgiven.
  unfold cbind, path_exists, run_io, json_load, json_dump, lift, cret, ret,
    print.
  cbn [output_file writable rewrite_labels]. rewrite Hser'.
  cbn. rewrite length_map. reflexivity.
Qed.

(** C10. An empty [--change_label] is no override.  The builder gives
    what it gives without one: once the split is found and the columns are
    accepted, its entries are those of the records processed that do not
    fail, in order, each with the label of its own record, which is the
    value of the label column when the column is asked for and the record
    has it, and the default label otherwise.  And [main] does not rewrite
    an existing output file but builds the manifest, as without the
    option. *)
Theorem empty_change_label_is_no_override :
  (forall d dataset_name video_column label_column split max_items
          default_label,
      extract_videos_from_dataset d dataset_name video_column label_column
        split max_items default_label (Some "")
      = extract_videos_from_dataset d dataset_name video_column label_column
          split max_items default_label None)
  /\ (forall d dataset_name video_column label_column split max_items
             default_label out1 out2 data label_column',
        select_split d split = (out1, Ok data) ->
        check_columns data video_column label_column
        = (out2, Ok label_column') ->
        exists out,
          extract_videos_from_dataset d dataset_name video_column
            label_column split max_items default_label (Some "")
          = (out,
             Ok (kept dataset_name video_column label_column' default_label
                      None (iterated max_items 0 (rows data)) 0)))
  /\ (forall dataset_name video_column label_column default_label i kvs,
        item_result dataset_name video_column label_column default_label
                    None i (VDict kvs)
        = match assoc video_column kvs with
          | Some video_data =>
              match snd (get_video_url_from_hf video_data dataset_name i) with
              | Ok video_url =>
                  Ok {| video := video_url;
                        label := match (if given label_column
                                        then assoc (text label_column) kvs
                                        else None) with
                                 | Some v => py_str v
                                 | None => default_label
                                 end |}
              | Raise e => Raise e
              end
          | None => Raise (KeyError video_column)
          end)
  /\ (forall label_column default_label kvs,
        item_label label_column default_label
                   (if given (Some "") then Some "" else None) (VDict kvs)
        = ret match (if given label_column
                     then assoc (text label_column) kvs else None) with
              | Some v => py_str v
              | None => default_label
              end)
  /\ (forall (a : args.t) (w : world),
        args.change_label a = Some "" ->
        main load_dataset a w
        = ctry_except (build_manifest load_dataset a)
            (fun e => (run_io (print (ErrorTop e)) ;; cret (Some 1))%cmd) w
        /\ main load_dataset a w
           = main load_dataset (without_change_label a) w).
Proof.
  split; [|split; [|split; [|split]]].
  - reflexivity.
  - intros d dn vc lc split mi dl out1 out2 data lc' Hsplit Hcols.
    destruct (extract_spec dn vc lc' mi dl None d split lc (Some "")
                out1 out2 data Hsplit Hcols eq_refl) as [out [Hrun _]].
    exists out. exact Hrun.
  - intros dn vc lc dl i kvs. unfold item_result, process_item.
    cbn [py_getitem]. destruct (assoc vc kvs) as [video_data|];
      [|reflexivity].
    cbn [lift bind].
    destruct (get_video_url_from_hf video_data dn i) as [out [url | e]];
      [|reflexivity].
    cbn [snd]. unfold item_label. cbn [given].
    destruct (given lc); [|reflexivity].
    cbn [py_contains py_getitem lift bind].
    destruct (assoc (text lc) kvs); reflexivity.
  - intros lc dl kvs. unfold item_label. cbn [given negb String.eqb].
    destruct (given lc); [|reflexivity].
    cbn [py_contains py_getitem lift bind].
    destruct (assoc (text lc) kvs); reflexivity.
  - intros a w Hempty.
    assert (Hbuild : main load_dataset a w
                     = ctry_except (build_manifest load_dataset a)
                         (fun e => (run_io (print (ErrorTop e)) ;;
                                    cret (Some 1))%cmd) w).
    { apply main_builds. left. rewrite Hempty. reflexivity. }
    split; [exact Hbuild|].
    rewrite Hbuild.
    rewrite (main_builds (without_change_label a) w) by (left; reflexivity).
    unfold build_manifest. cbn [without_change_label args.database
      args.output args.label args.change_label args.video_column
      args.label_column args.split args.subset args.max_items].
    rewrite Hempty. reflexivity.
Qed.

End CommandLine.

Definition build_arguments : args.t :=
  {| args.database := Some "alice/myset";
     args.output := "input.json";
     args.label := "cam_motion.dolly_zoom_movement.has_dolly_in_zoom_out";
     args.change_label := None;
     args.video_column := "video";
     args.label_column := None;
     args.split := "train";
     args.subset := None;
     args.streaming := false;
     args.max_items := None |}.

(** A dataset service with one split of one record. *)
Definition one_video_service (name : string) (subset : option string)
  : result dataset :=
  Ok (SplitDict
        [("train", example_table [record_of "https://example.org/clip.mp4"])]).

Example main_written_example :
  main one_video_service build_arguments
       {| output_file := Missing; writable := true |}
  = ({| output_file :=
          Holds (Some (VList
            [VDict [("video", VStr "https://example.org/clip.mp4");
                    ("label",
                     VStr "cam_motion.dolly_zoom_movement.has_dolly_in_zoom_out")]]));
        writable := true |},
     ([LoadingDataset "alice/myset"; DatasetLoaded; AvailableSplits ["train"];
       ProcessingStreaming; ExtractedEntries 1; FirstFewEntries;
       EntryVideo 1 (VStr "https://example.org/clip.mp4");
       EntryLabel "cam_motion.dolly_zoom_movement.has_dolly_in_zoom_out";
       JsonFileCreated "input.json"; ContainsEntries 1],
      Ok None)).
Proof. reflexivity. Qed.

Lemma main_written_returns_None_witness :
  exists out,
    main one_video_service build_arguments
         {| output_file := Missing; writable := true |}
    = ({| output_file :=
            Holds (Some (VList
              [VDict [("video", VStr "https://example.org/clip.mp4");
                      ("label",
                       VStr "cam_motion.dolly_zoom_movement.has_dolly_in_zoom_out")]]));
          writable := true |},
       (out, Ok None)).
Proof.
  apply (main_written_returns_None one_video_service build_arguments
           {| output_file := Missing; writable := true |}
           (SplitDict
              [("train",
                example_table [record_of "https://example.org/clip.mp4"])])
           [ProcessingStreaming]
           {| video := VStr "https://example.org/clip.mp4";
              label := "cam_motion.dolly_zoom_movement.has_dolly_in_zoom_out" |}
           []);
    try reflexivity.
  - left. reflexivity.
  - discriminate.
Defined.

Definition empty_override_arguments : args.t :=
  {| args.database := Some "alice/myset";
     args.output := "input.json";
     args.label := "default_label";
     args.change_label := Some "";
     args.video_column := "video";
     args.label_column := Some "kind";
     args.split := "train";
     args.subset := None;
     args.streaming := false;
     args.max_items := None |}.

Definition existing_manifest : world :=
  {| output_file := Holds (Some (VList [VDict [("video", VStr "a.mp4");
                                               ("label", VStr "old")]]));
     writable := true |}.

(** Three records: one with a text in the label column, one with a number
    in it, one without it. *)
Definition kind_records : list pyval :=
  [VDict [("video", VStr "https://example.org/a.mp4"); ("kind", VStr "pan")];
   VDict [("video", VStr "https://example.org/b.mp4"); ("kind", VInt 3)];
   VDict [("video", VStr "https://example.org/c.mp4")]].

Definition kind_service (name : string) (subset : option string)
  : result dataset :=
  Ok (SplitDict [("train", example_table kind_records)]).

Lemma empty_change_label_is_no_override_witness :
  (exists out,
     extract_videos_from_dataset
       (SplitDict [("train", example_table kind_records)])
       "alice/myset" "video" (Some "kind") "train" None "default_label"
       (Some "")
     = (out,
        Ok [{| video := VStr "https://example.org/a.mp4"; label := "pan" |};
            {| video := VStr "https://example.org/b.mp4"; label := "3" |};
            {| video := VStr "https://example.org/c.mp4";
               label := "default_label" |}]))
  /\ main kind_service empty_override_arguments existing_manifest
     = ({| output_file :=
             Holds (Some (VList
               [VDict [("video", VStr "https://example.org/a.mp4");
                       ("label", VStr "pan")];
                VDict [("video", VStr "https://example.org/b.mp4");
                       ("label", VStr "3")];
                VDict [("video", VStr "https://example.org/c.mp4");
                       ("label", VStr "default_label")]]));
           writable := true |},
        ([LoadingDataset "alice/myset"; DatasetLoaded;
          AvailableSplits ["train"]; ProcessingStreaming;
          ExtractedEntries 3; FirstFewEntries;
          EntryVideo 1 (VStr "https://example.org/a.mp4"); EntryLabel "pan";
          EntryVideo 2 (VStr "https://example.org/b.mp4"); EntryLabel "3";
          EntryVideo 3 (VStr "https://example.org/c.mp4");
          EntryLabel "default_label";
          JsonFileCreated "input.json"; ContainsEntries 3;
          LabelDistribution; LabelCount "3" 1;
          LabelCount "default_label" 1; LabelCount "pan" 1],
         Ok None)).
Proof.
  split.
  - destruct (proj1 (proj2 (empty_change_label_is_no_override kind_service))
                (SplitDict [("train", example_table kind_records)])
                "alice/myset" "video" (Some "kind") "train" None
                "default_label" [] [] (example_table kind_records)
                (Some "kind") eq_refl eq_refl) as [out Hrun].
    exists out. rewrite Hrun. reflexivity.
  - rewrite (proj1 (proj2 (proj2 (proj2 (proj2
               (empty_change_label_is_no_override kind_service))))
               empty_override_arguments existing_manifest eq_refl)).
    reflexivity.
Defined.

(* ================================================================== *)
(** ** Further properties of the manifest builder *)
(* ================================================================== *)

Section BuilderEntries.

Variables (dataset_name video_column : string).
Variable default_label : string.

(** The label lines 206-212 give a record with the fields [kvs]. *)
Definition entry_label (label_column use_label : option string)
  (kvs : list (string * pyval)) : string :=
  if given use_label then text use_label
  else if given label_column then
    match assoc (text label_column) kvs with
    | Some v => py_str v
    | None => default_label
    end
  else default_label.

(** How a record ends: only a dictionary with the video field and a
    reference the resolver accepts gives an entry; the label never
    fails. *)
Lemma item_result_spec (label_column use_label : option string) (i : Z)
  (item : pyval) :
  item_result dataset_name video_column label_column default_label use_label
              i item
  = match item with
    | VDict kvs =>
        match assoc video_column kvs with
        | Some video_data =>
            match snd (get_video_url_from_hf video_data dataset_name i) with
            | Ok url =>
                Ok {| video := url;
                      label := entry_label label_column use_label kvs |}
            | Raise e => Raise e
            end
        | None => Raise (KeyError video_column)
        end
    | _ => Raise TypeError
    end.
Proof.
  unfold item_result, process_item.
  destruct item as [ | | | | | kvs | ]; try reflexivity.
  cbn [py_getitem]. destruct (assoc video_column kvs) as [video_data|];
    [|reflexivity].
  cbn [lift bind].
  destruct (get_video_url_from_hf video_data dataset_name i)
    as [out [url | e]]; [|reflexivity].
  cbn [snd]. unfold item_label, entry_label.
  destruct (given use_label); [reflexivity|].
  destruct (given label_column); [|reflexivity].
  cbn [py_contains py_getitem lift bind].
  destruct (assoc (text label_column) kvs); reflexivity.
Qed.

(** With an override every entry kept has the override as label, and the
    same video as without one. *)
Lemma kept_with_override (label_column : option string) (new_label : string)
  (items : list pyval) :
  new_label <> "" ->
  forall i,
    kept dataset_name video_column label_column default_label
         (Some new_label) items i
    = map (fun e => {| video := video e; label := new_label |})
          (kept dataset_name video_column label_column default_label
                None items i).
Proof.
  intros Hne.
  assert (Hgiven : given (Some new_label) = true).
  { simpl. destruct (String.eqb_spec new_label ""); [contradiction|].
    reflexivity. }
  induction items as [|item rest IH]; intros i; [reflexivity|].
  cbn [kept]. rewrite !item_result_spec.
  destruct item as [ | | | | | kvs | ]; try apply IH.
  destruct (assoc video_column kvs) as [video_data|]; [|apply IH].
  destruct (snd (get_video_url_from_hf video_data dataset_name i));
    [|apply IH].
  cbn [map video]. rewrite IH. f_equal. f_equal.
  unfold entry_label. rewrite Hgiven. reflexivity.
Qed.

(** The records that fail are the same with and without an override. *)
Lemma failures_with_override (label_column use_label : option string)
  (items : list pyval) :
  forall i,
    failures dataset_name video_column label_column default_label
             use_label items i
    = failures dataset_name video_column label_column default_label
               None items i.
Proof.
  induction items as [|item rest IH]; intros i; [reflexivity|].
  cbn [failures]. rewrite !item_result_spec.
  destruct item as [ | | | | | kvs | ]; try (now rewrite IH).
  destruct (assoc video_column kvs) as [video_data|]; [|now rewrite IH].
  destruct (snd (get_video_url_from_hf video_data dataset_name i));
    now rewrite IH.
Qed.

(** The labels of the entries kept. *)
Lemma kept_labels (label_column use_label : option string)
  (P : string -> Prop) (items : list pyval) :
  (forall kvs, In (VDict kvs) items ->
               P (entry_label label_column use_label kvs)) ->
  forall i,
    Forall (fun e => P (label e))
           (kept dataset_name video_column label_column default_label
                 use_label items i).
Proof.
  induction items as [|item rest IH]; intros HP i; [constructor|].
  cbn [kept]. rewrite item_result_spec.
  assert (Hrest : forall i',
             Forall (fun e => P (label e))
                    (kept dataset_name video_column label_column
                          default_label use_label rest i')).
  { apply IH. intros kvs Hin. apply HP. now right. }
  destruct item as [ | | | | | kvs | ]; try apply Hrest.
  destruct (assoc video_column kvs) as [video_data|]; [|apply Hrest].
  destruct (snd (get_video_url_from_hf video_data dataset_name i));
    [|apply Hrest].
  constructor; [|apply Hrest].
  cbn [label]. apply HP. now left.
Qed.

End BuilderEntries.

Section BuilderRuns.

Variables (dataset : dataset) (dataset_name video_column : string).
Variables (label_column : option string) (split : string).
Variables (default_label : string).

(** The override in use, lines 188-192. *)
Definition override_in_use (change_label : option string) : option string :=
  if given change_label then change_label else None.

(** How the builder ends, whatever it prints. *)
Lemma extract_result (max_items : option Z) (change_label : option string) :
  snd (extract_videos_from_dataset dataset dataset_name video_column
         label_column split max_items default_label change_label)
  = match snd (select_split dataset split) with
    | Raise e => Raise e
    | Ok data =>
        match snd (check_columns data video_column label_column) with
        | Raise e => Raise e
        | Ok columns_label =>
            Ok (kept dataset_name video_column columns_label default_label
                     (override_in_use change_label)
                     (iterated max_items 0 (rows data)) 0)
        end
    end.
Proof.
  destruct (select_split dataset split) as [out1 [data | e]] eqn:Hsplit.
  - destruct (check_columns data video_column label_column)
      as [out2 [columns_label | e]] eqn:Hcols.
    + destruct (extract_spec dataset_name video_column columns_label
                  max_items default_label (override_in_use change_label)
                  dataset split label_column change_label out1 out2 data
                  Hsplit Hcols eq_refl) as [out [-> _]].
      cbn [snd]. rewrite Hcols. reflexivity.
    + unfold extract_videos_from_dataset. rewrite Hsplit. cbn [bind snd].
      rewrite Hcols. reflexivity.
  - unfold extract_videos_from_dataset. rewrite Hsplit. reflexivity.
Qed.

Lemma bind_ok {A B} (out : list event) (a : A) (k : A -> io B) :
  bind (out, Ok a) k = ((out ++ fst (k a))%list, snd (k a)).
Proof. unfold bind. destruct (k a). reflexivity. Qed.

(** What the checks print comes first in what the builder prints. *)
Lemma extract_output (max_items : option Z) (change_label : option string)
  (out1 out2 : list event) (data : table) (columns_label : option string) :
  select_split dataset split = (out1, Ok data) ->
  check_columns data video_column label_column = (out2, Ok columns_label) ->
  exists out',
    fst (extract_videos_from_dataset dataset dataset_name video_column
           label_column split max_items default_label change_label)
    = (out1 ++ out2 ++ out')%list.
Proof.
  intros Hsplit Hcols. unfold extract_videos_from_dataset.
  rewrite Hsplit, bind_ok, Hcols, bind_ok. cbn [fst].
  eexists. reflexivity.
Qed.

(** X1. When a non-empty override label is given, every entry the builder
    returns has the override as its label, whatever the label column and
    the records hold. *)
Theorem override_labels_every_entry (max_items : option Z)
  (new_label : string) (out : list event) (entries : list entry) :
  new_label <> "" ->
  extract_videos_from_dataset dataset dataset_name video_column label_column
    split max_items default_label (Some new_label)
  = (out, Ok entries) ->
  Forall (fun e => label e = new_label) entries.
Proof.
  intros Hne Hrun.
  pose proof (extract_result max_items (Some new_label)) as Hres.
  rewrite Hrun in Hres. cbn [snd] in Hres.
  destruct (snd (select_split dataset split)) as [data|]; [|discriminate].
  destruct (snd (check_columns data video_column label_column))
    as [columns_label|]; [|discriminate].
  inversion Hres; subst entries.
  apply (kept_labels dataset_name video_column default_label columns_label
           _ (fun l => l = new_label)).
  intros kvs _. unfold entry_label, override_in_use.
  cbn [given]. destruct (String.eqb_spec new_label ""); [contradiction|].
  cbn [negb given]. destruct (String.eqb_spec new_label "");
    [contradiction | reflexivity].
Qed.

(** X2. Rewriting the labels of a manifest built without an override
    gives the manifest that the builder returns with the override: the
    same records fail, the videos are the same, and only the labels
    change.  When the build without an override raises, so does the build
    with it. *)
Theorem relabel_equals_rebuild (max_items : option Z) (new_label : string) :
  new_label <> "" ->
  match extract_videos_from_dataset dataset dataset_name video_column
          label_column split max_items default_label None with
  | (_, Ok entries) =>
      exists out' entries',
        extract_videos_from_dataset dataset dataset_name video_column
          label_column split max_items default_label (Some new_label)
        = (out', Ok entries')
        /\ rewrite_labels (VList (map entry_json entries)) new_label
           = Ok (VList (map entry_json entries'))
  | (_, Raise e) =>
      exists out',
        extract_videos_from_dataset dataset dataset_name video_column
          label_column split max_items default_label (Some new_label)
        = (out', Raise e)
  end.
Proof.
  intros Hne.
  pose proof (extract_result max_items None) as Hnone.
  pose proof (extract_result max_items (Some new_label)) as Hsome.
  assert (Huse : override_in_use (Some new_label) = Some new_label).
  { unfold override_in_use. cbn [given].
    destruct (String.eqb_spec new_label ""); [contradiction | reflexivity]. }
  rewrite Huse in Hsome. change (override_in_use None) with (@None string) in Hnone.
  destruct (extract_videos_from_dataset dataset dataset_name video_column
              label_column split max_items default_label None)
    as [out r].
  destruct (extract_videos_from_dataset dataset dataset_name video_column
              label_column split max_items default_label (Some new_label))
    as [out' r'].
  cbn [snd] in Hnone, Hsome.
  destruct (snd (select_split dataset split)) as [data | e].
  - destruct (snd (check_columns data video_column label_column))
      as [columns_label | e].
    + subst r r'. eexists. eexists. split; [reflexivity|].
      rewrite (kept_with_override dataset_name video_column default_label
                 columns_label new_label _ Hne).
      cbn [rewrite_labels]. rewrite !map_map. reflexivity.
    + subst r r'. eexists. reflexivity.
  - subst r r'. eexists. reflexivity.
Qed.

End BuilderRuns.

Section BuilderLimits.

Variables (dataset : dataset) (dataset_name video_column : string).
Variables (label_column : option string) (split : string).
Variables (default_label : string) (change_label : option string).

Lemma loop_zero_limit (use_label columns_label : option string)
  (items : list pyval) :
  forall i results,
    loop dataset_name video_column columns_label (Some 0) default_label
         use_label items i results
    = loop dataset_name video_column columns_label None default_label
           use_label items i results.
Proof.
  induction items as [|item rest IH]; intros i results; [reflexivity|].
  cbn [loop].
  change (loop_body dataset_name video_column columns_label (Some 0)
            default_label use_label results i item)
    with (loop_body dataset_name video_column columns_label None
            default_label use_label results i item).
  destruct (loop_body dataset_name video_column columns_label None
              default_label use_label results i item) as [out [[|r] | e]];
    cbn [bind]; [reflexivity | | reflexivity].
  rewrite IH. reflexivity.
Qed.

(** X3. A limit of [0] is no limit: the builder prints and returns what it
    does without [max_items]. *)
Theorem zero_max_items_is_no_limit :
  extract_videos_from_dataset dataset dataset_name video_column label_column
    split (Some 0) default_label change_label
  = extract_videos_from_dataset dataset dataset_name video_column
      label_column split None default_label change_label.
Proof.
  unfold extract_videos_from_dataset.
  destruct (select_split dataset split) as [out1 [data | e]]; [|reflexivity].
  cbn [bind].
  destruct (check_columns data video_column label_column)
    as [out2 [columns_label | e]]; [|reflexivity].
  cbn [bind].
  destruct (has_len data); destruct (given change_label);
    cbn [print bind ret]; rewrite loop_zero_limit; reflexivity.
Qed.

Lemma kept_length_le (columns_label use_label : option string)
  (items : list pyval) (i : Z) :
  (length (kept dataset_name video_column columns_label default_label
                use_label items i) <= length items)%nat.
Proof.
  pose proof (kept_failures_length dataset_name video_column columns_label
                default_label use_label items i). lia.
Qed.

(** X4. The builder never returns more entries than the split has records,
    nor more than a positive [max_items]; with a negative [max_items] it
    returns no entry. *)
Theorem max_items_bounds_entries (max_items : option Z) (out : list event)
  (entries : list entry) :
  extract_videos_from_dataset dataset dataset_name video_column label_column
    split max_items default_label change_label
  = (out, Ok entries) ->
  (forall data, snd (select_split dataset split) = Ok data ->
                (length entries <= length (rows data))%nat)
  /\ (forall m, max_items = Some m -> 0 < m ->
                (length entries <= Z.to_nat m)%nat)
  /\ (forall m, max_items = Some m -> m < 0 -> entries = []).
Proof.
  intros Hrun.
  pose proof (extract_result dataset dataset_name video_column label_column
                split default_label max_items change_label) as Hres.
  rewrite Hrun in Hres. cbn [snd] in Hres.
  destruct (snd (select_split dataset split)) as [data|]; [|discriminate].
  destruct (snd (check_columns data video_column label_column))
    as [columns_label|]; [|discriminate].
  inversion Hres as [Hentries]. clear Hres. subst entries.
  split; [|split].
  - intros data' Hdata. inversion Hdata; subst data'.
    etransitivity; [apply kept_length_le|].
    unfold iterated. destruct max_items as [m|]; [|reflexivity].
    destruct (m =? 0); [reflexivity | rewrite length_firstn; lia].
  - intros m -> Hm. etransitivity; [apply kept_length_le|].
    unfold iterated. destruct (Z.eqb_spec m 0); [lia|].
    rewrite Z.sub_0_r. rewrite length_firstn. lia.
  - intros m -> Hm. unfold iterated.
    destruct (Z.eqb_spec m 0); [lia|].
    replace (Z.to_nat (m - 0)) with 0%nat by lia. reflexivity.
Qed.

(** A string that starts with [http://] or [https://] is its own
    resolution. *)
Lemma http_string_resolves (u : string) (i : Z) :
  is_http_url (VStr u) = true ->
  get_video_url_from_hf (VStr u) dataset_name i = ([], Ok (VStr u)).
Proof.
  intros H. unfold get_video_url_from_hf, locate. rewrite H. reflexivity.
Qed.

Lemma kept_http_records (columns_label use_label : option string)
  (items : list pyval) (urls : list string) :
  Forall2 (fun item u =>
             exists kvs, item = VDict kvs
                         /\ assoc video_column kvs = Some (VStr u)
                         /\ is_http_url (VStr u) = true) items urls ->
  forall i,
    map video (kept dataset_name video_column columns_label default_label
                    use_label items i)
    = map VStr urls.
Proof.
  induction 1 as [|item u items urls [kvs [-> [Hfield Hurl]]] _ IH];
    intros i; [reflexivity|].
  cbn [kept]. rewrite item_result_spec, Hfield.
  rewrite (http_string_resolves u i Hurl). cbn [snd map video].
  rewrite IH. reflexivity.
Qed.

(** X5. When every record of the split holds, in the video field, a string
    that starts with [http://] or [https://], and no limit is set, the
    builder returns one entry for each record, in order, whose video is
    that string unchanged, whatever the dataset name and the labels. *)
Theorem http_urls_pass_through (urls : list string) (out1 out2 : list event)
  (data : table) (columns_label : option string) :
  select_split dataset split = (out1, Ok data) ->
  check_columns data video_column label_column = (out2, Ok columns_label) ->
  Forall2 (fun item u =>
             exists kvs, item = VDict kvs
                         /\ assoc video_column kvs = Some (VStr u)
                         /\ is_http_url (VStr u) = true)
          (rows data) urls ->
  exists out entries,
    extract_videos_from_dataset dataset dataset_name video_column
      label_column split None default_label change_label
    = (out, Ok entries)
    /\ map video entries = map VStr urls.
Proof.
  intros Hsplit Hcols Hrows.
  destruct (extract_spec dataset_name video_column columns_label None
              default_label (override_in_use change_label) dataset split
              label_column change_label out1 out2 data Hsplit Hcols eq_refl)
    as [out [Hrun _]].
  eexists. eexists. split; [exact Hrun|].
  now apply kept_http_records.
Qed.

End BuilderLimits.

Section BuilderColumns.

Variables (dataset : dataset) (dataset_name video_column : string).
Variables (label_column : option string) (split : string).
Variables (max_items : option Z) (default_label : string).
Variable change_label : option string.

Lemma select_split_silent : fst (select_split dataset split) = [].
Proof.
  unfold select_split. destruct dataset as [data | splits]; [reflexivity|].
  destruct (lookup_split split splits); reflexivity.
Qed.

(** X6. The check of the columns comes before any record is read.  When
    the split has column names and the video column is not among them,
    the builder raises [ValueError] with a message that gives the column
    asked for and the columns there are; when its [column_names] is
    [None], the builder raises [TypeError].  Nothing is printed. *)
Theorem video_column_checked_first (data : table) :
  snd (select_split dataset split) = Ok data ->
  (forall columns,
      column_names data = Some columns ->
      py_contains video_column columns = Ok false ->
      extract_videos_from_dataset dataset dataset_name video_column
        label_column split max_items default_label change_label
      = ([], Raise (ValueError ("Video column '" ++ video_column
                                ++ "' not found. Available columns: "
                                ++ py_str columns))))
  /\ (column_names data = Some VNone ->
      extract_videos_from_dataset dataset dataset_name video_column
        label_column split max_items default_label change_label
      = ([], Raise TypeError)).
Proof.
  intros Hdata.
  assert (Hsplit : select_split dataset split = ([], Ok data)).
  { pose proof select_split_silent as Hs.
    destruct (select_split dataset split) as [o r]. cbn [fst snd] in *.
    now subst. }
  split.
  - intros columns Hcols Habsent.
    unfold extract_videos_from_dataset. rewrite Hsplit. cbn [bind].
    unfold check_columns. rewrite Hcols, Habsent. reflexivity.
  - intros Hcols.
    unfold extract_videos_from_dataset. rewrite Hsplit. cbn [bind].
    unfold check_columns. rewrite Hcols. reflexivity.
Qed.

(** X7. When the split has column names, the video column is among them
    and the label column asked for is not, and no override is given, the
    builder prints a warning and gives every entry the default label, also
    for records that hold a field of that name. *)
Theorem absent_label_column_is_dropped (data : table) (columns : pyval) :
  snd (select_split dataset split) = Ok data ->
  column_names data = Some columns ->
  py_contains video_column columns = Ok true ->
  given label_column = true ->
  py_contains (text label_column) columns = Ok false ->
  given change_label = false ->
  exists out entries,
    extract_videos_from_dataset dataset dataset_name video_column
      label_column split max_items default_label change_label
    = (out, Ok entries)
    /\ In (WarnLabelColumn (text label_column) columns) out
    /\ Forall (fun e => label e = default_label) entries.
Proof.
  intros Hdata Hcols Hvideo Hgiven Hlabel Hno.
  assert (Hsplit : select_split dataset split = ([], Ok data)).
  { pose proof select_split_silent as Hs.
    destruct (select_split dataset split) as [o r]. cbn [fst snd] in *.
    now subst. }
  assert (Hcheck : check_columns data video_column label_column
                   = ([WarnLabelColumn (text label_column) columns], Ok None)).
  { unfold check_columns. rewrite Hcols, Hvideo. cbn [lift bind negb].
    rewrite Hgiven, Hlabel. reflexivity. }
  destruct (extract_spec dataset_name video_column None max_items
              default_label (override_in_use change_label) dataset split
              label_column change_label _ _ data Hsplit Hcheck eq_refl)
    as [out [Hrun _]].
  destruct (extract_output dataset dataset_name video_column label_column
              split default_label max_items change_label _ _ data None
              Hsplit Hcheck) as [out' Hout].
  rewrite Hrun in Hout. cbn [fst] in Hout.
  exists out. eexists. split; [exact Hrun|]. split.
  - rewrite Hout. now left.
  - apply (kept_labels dataset_name video_column default_label None _
             (fun l => l = default_label)).
    intros kvs _. unfold entry_label, override_in_use. rewrite Hno.
    reflexivity.
Qed.

End BuilderColumns.

Section RewriterComposition.

Lemma assoc_set_twice (k : string) (v1 v2 : pyval)
  (kvs : list (string * pyval)) :
  assoc_set k v2 (assoc_set k v1 kvs) = assoc_set k v2 kvs.
Proof.
  induction kvs as [|[k' v'] rest IH]; cbn [assoc_set].
  - rewrite String.eqb_refl. reflexivity.
  - destruct (String.eqb k k') eqn:Hk; cbn [assoc_set]; rewrite Hk;
      [reflexivity | now rewrite IH].
Qed.

Lemma rewrite_label_twice (l1 l2 : string) (item : pyval) :
  rewrite_label l2 (rewrite_label l1 item) = rewrite_label l2 item.
Proof.
  destruct item as [ | | | | | kvs | ]; try reflexivity.
  cbn [rewrite_label].
  destruct (is_some (assoc "label" kvs)) eqn:Hhas.
  - cbn [rewrite_label]. rewrite assoc_set_same, assoc_set_twice.
    reflexivity.
  - cbn [rewrite_label]. rewrite Hhas. reflexivity.
Qed.

(** X8. Rewriting the labels again replaces the labels of the first
    rewriting: after a rewriting with one label, a rewriting with a second
    label gives what the second gives on the manifest as it was loaded; so
    rewriting twice with the same label changes nothing more. *)
Theorem last_rewriting_wins (json_data rewritten : pyval) (l1 l2 : string) :
  rewrite_labels json_data l1 = Ok rewritten ->
  rewrite_labels rewritten l2 = rewrite_labels json_data l2
  /\ rewrite_labels rewritten l1 = Ok rewritten.
Proof.
  intros H.
  destruct json_data as [ | | | s | items | kvs | ]; try discriminate H;
    inversion H; subst rewritten; cbn [rewrite_labels].
  - split; reflexivity.
  - rewrite !map_map. split; f_equal; f_equal; apply map_ext;
      intros item; apply rewrite_label_twice.
  - split; reflexivity.
Qed.

End RewriterComposition.

(* ================================================================== *)
(** ** Further properties of the command *)
(* ================================================================== *)

Section CommandRuns.

Variable load_dataset : string -> option string -> result dataset.

Lemma cbind_ok_inv {A B} (m : cmd A) (k : A -> cmd B) (w w' : world)
  (out : list event) (r : B) :
  cbind m k w = (w', (out, Ok r)) ->
  exists w1 o1 a o2,
    m w = (w1, (o1, Ok a)) /\ k a w1 = (w', (o2, Ok r)).
Proof.
  unfold cbind. destruct (m w) as [w1 [o1 [a | e]]]; [|discriminate].
  destruct (k a w1) as [w2 [o2 r2]] eqn:Hk. intros H. inversion H; subst.
  now exists w1, o1, a, o2.
Qed.

Ltac cbind_step H :=
  apply cbind_ok_inv in H;
  let w1 := fresh "w" in
  let o1 := fresh "o" in
  let x := fresh "x" in
  let o2 := fresh "o" in
  let H1 := fresh "Hstep" in
  destruct H as (w1 & o1 & x & o2 & H1 & H).

Lemma rewrite_existing_returns (a : args.t) (w w' : world)
  (out : list event) (r : option Z) :
  rewrite_existing a w = (w', (out, Ok r)) -> r = Some 0.
Proof.
  unfold rewrite_existing. intros H.
  do 7 cbind_step H. unfold cret, ret in H. now inversion H.
Qed.

Lemma build_manifest_returns (a : args.t) (w w' : world)
  (out : list event) (r : option Z) :
  build_manifest load_dataset a w = (w', (out, Ok r)) ->
  r = Some 1 \/ r = None.
Proof.
  unfold build_manifest. intros H.
  destruct (negb (given (args.database a))).
  - cbind_step H. unfold cret, ret in H. inversion H. now left.
  - do 6 cbind_step H. destruct x4 as [|e es].
    + cbind_step H. unfold cret, ret in H. inversion H. now left.
    + do 7 cbind_step H. unfold cret, ret in H. inversion H. now right.
Qed.

(** X9. Once [parser.parse_args()] (line 249, before the [try]) has
    accepted the command line, no exception leaves the [try] of lines
    251-336: whatever the parsed arguments, the dataset service and the
    output file, [main] returns [None], [0] or [1]. *)
Theorem main_returns_None_0_or_1 (a : args.t) (w : world) :
  exists w' out r,
    main load_dataset a w = (w', (out, Ok r))
    /\ (r = None \/ r = Some 0 \/ r = Some 1).
Proof.
  unfold main, ctry_except.
  match goal with
  | |- context [match ?m with _ => _ end] =>
      destruct m as [w1 [out [r | e]]] eqn:Hbody
  end.
  - exists w1, out, r. split; [reflexivity|].
    cbind_step Hbody. destruct x.
    + apply rewrite_existing_returns in Hbody. auto.
    + apply build_manifest_returns in Hbody. destruct Hbody; auto.
  - rewrite cbind_print. cbn. eexists. eexists. eexists.
    split; [reflexivity | auto].
Qed.

(** The body of [main] when the labels of an existing file are to be
    rewritten. *)
Lemma main_rewrites (a : args.t) (w : world) :
  given (args.change_label a) = true ->
  output_file w <> Missing ->
  main load_dataset a w
  = ctry_except (rewrite_existing a)
                (fun e => (run_io (print (ErrorTop e)) ;; cret (Some 1))%cmd) w.
Proof.
  intros Hgiven Hfile. unfold main, ctry_except, relabel_requested.
  rewrite Hgiven. unfold cbind at 1. unfold path_exists.
  assert (Hex : match output_file w with Missing => false | _ => true end
                = true)
    by (destruct (output_file w); [contradiction | reflexivity..]).
  rewrite Hex. cbn [ret].
  destruct (rewrite_existing a w) as [w2 [out [r | e]]]; reflexivity.
Qed.

(** The part of the run that decides whether entries are there to write:
    the database option, the loading, and the builder. *)
Definition entries_extracted (a : args.t) : result (list entry) :=
  if given (args.database a) then
    match load_dataset (text (args.database a)) (args.subset a) with
    | Ok d =>
        snd (extract_videos_from_dataset d (text (args.database a))
               (args.video_column a) (args.label_column a) (args.split a)
               (args.max_items a) (args.label a) (args.change_label a))
    | Raise e => Raise e
    end
  else Ok [].

(** X10. When the labels of an existing file are not to be rewritten, and
    the database option is missing, or the dataset does not load, or the
    builder raises, or it returns no entry, then [main] returns [1] and
    leaves the output file as it was. *)
Theorem without_entries_main_returns_1 (a : args.t) (w : world) :
  given (args.change_label a) = false \/ output_file w = Missing ->
  (forall e es, entries_extracted a <> Ok (e :: es)) ->
  exists out, main load_dataset a w = (w, (out, Ok (Some 1))).
Proof.
  intros Hpath Hnone. rewrite (main_builds load_dataset a w Hpath).
  unfold entries_extracted in Hnone.
  unfold ctry_except, build_manifest.
  destruct (given (args.database a)); cbn [negb].
  - rewrite cbind_print.
    unfold cbind, run_io, lift, cret, ret, print.
    destruct (load_dataset (text (args.database a)) (args.subset a))
      as [d | e].
    + destruct (extract_videos_from_dataset d (text (args.database a))
                  (args.video_column a) (args.label_column a) (args.split a)
                  (args.max_items a) (args.label a) (args.change_label a))
        as [out [[|e es] | e]]; cbn [snd] in Hnone.
      * destruct (given (args.subset a)); destruct d; cbn;
          eexists; reflexivity.
      * exfalso. now apply (Hnone e es).
      * destruct (given (args.subset a)); destruct d; cbn;
          eexists; reflexivity.
    + destruct (given (args.subset a)); cbn; eexists; reflexivity.
  - rewrite cbind_print. cbn. eexists. reflexivity.
Qed.

(** X11. With a usable [--change_label] and something at the output path,
    [main] does not consult the dataset service: its outcome is the same
    for every service, and no database option is needed. *)
Theorem rewriting_ignores_dataset
  (other_service : string -> option string -> result dataset)
  (a : args.t) (w : world) :
  given (args.change_label a) = true ->
  output_file w <> Missing ->
  main load_dataset a w = main other_service a w.
Proof.
  intros Hgiven Hfile.
  unfold main, ctry_except, relabel_requested.
  rewrite Hgiven. unfold cbind at 1 3. unfold path_exists.
  assert (Hex : match output_file w with Missing => false | _ => true end
                = true)
    by (destruct (output_file w); [contradiction | reflexivity..]).
  rewrite Hex. reflexivity.
Qed.

(** X12. When entries are extracted but one of them cannot be written as
    JSON (a video that is not text), [main] returns [1] and the output
    file, emptied when opened, holds no complete JSON text: what it held
    before is lost. *)
Theorem unwritable_entry_empties_file (a : args.t) (w : world) (d : dataset)
  (out : list event) (e : entry) (es : list entry) :
  given (args.change_label a) = false \/ output_file w = Missing ->
  given (args.database a) = true ->
  load_dataset (text (args.database a)) (args.subset a) = Ok d ->
  extract_videos_from_dataset d (text (args.database a))
    (args.video_column a) (args.label_column a) (args.split a)
    (args.max_items a) (args.label a) (args.change_label a)
  = (out, Ok (e :: es)) ->
  output_file w <> IsDirectory ->
  writable w = true ->
  serializable (VList (map entry_json (e :: es))) = false ->
  exists out',
    main load_dataset a w
    = ({| output_file := Holds None; writable := true |},
       (out', Ok (Some 1)))
    /\ In (ErrorTop TypeError) out'.
Proof.
  intros Hpath Hdb Hload Hextract Hdir Hw Hser.
  rewrite (main_builds load_dataset a w Hpath).
  unfold ctry_except, build_manifest. rewrite Hdb. cbn [negb].
  rewrite cbind_print.
  unfold cbind, run_io, lift, cret, ret, print, json_dump, print_all.
  rewrite Hload, Hextract, Hw, Hser.
  destruct (given (args.subset a)); destruct d;
    destruct (output_file w); try contradiction;
    cbn; eexists; (split; [reflexivity|]);
    repeat apply in_cons; apply in_or_app; right; now left.
Qed.

End CommandRuns.

(* ================================================================== *)
(** ** Further facts about the string operations *)
(* ================================================================== *)

Section LastOccurrence.

Lemma prefix_empty (s : string) : String.prefix "" s = true.
Proof. destruct s; reflexivity. Qed.

(** A one-character text occurs where the character does. *)
Lemma contains_char_cons (c a : ascii) (r : string) :
  PyStr.contains (String c "") (String a r)
  = Ascii.eqb a c || PyStr.contains (String c "") r.
Proof.
  cbn [PyStr.contains]. f_equal. simpl.
  destruct (ascii_dec c a) as [-> | Hne].
  - rewrite prefix_empty, Ascii.eqb_refl. reflexivity.
  - destruct (Ascii.eqb_spec a c); [now subst | reflexivity].
Qed.

Lemma rfind_absent (s : string) (c : ascii) :
  PyStr.contains (String c "") s = false -> PyStr.rfind s c = -1.
Proof.
  induction s as [|a r IH]; intros H; [reflexivity|].
  rewrite contains_char_cons in H. apply orb_false_elim in H.
  destruct H as [Ha Hr]. cbn [PyStr.rfind]. rewrite (IH Hr), Ha.
  reflexivity.
Qed.

Lemma rfind_lower_bound (s : string) (c : ascii) : -1 <= PyStr.rfind s c.
Proof.
  induction s as [|a r IH]; cbn [PyStr.rfind]; [lia|].
  destruct (Z.leb_spec 0 (PyStr.rfind r c)); [lia|].
  destruct (Ascii.eqb a c); lia.
Qed.

(** The last occurrence in a text followed by a text that holds one. *)
Lemma rfind_append (a b : string) (c : ascii) :
  0 <= PyStr.rfind b c ->
  PyStr.rfind (a ++ b) c = Z.of_nat (String.length a) + PyStr.rfind b c.
Proof.
  intros Hb. induction a as [|x a IH]; [cbn; lia|].
  change (String x a ++ b) with (String x (a ++ b)).
  cbn [PyStr.rfind String.length]. rewrite IH.
  destruct (Z.leb_spec 0 (Z.of_nat (String.length a) + PyStr.rfind b c));
    lia.
Qed.

Lemma rfind_last_separator (a name : string) (c : ascii) :
  PyStr.contains (String c "") name = false ->
  PyStr.rfind (a ++ String c name) c = Z.of_nat (String.length a).
Proof.
  intros H. rewrite rfind_append.
  - cbn [PyStr.rfind]. rewrite (rfind_absent name c H). cbn.
    rewrite Ascii.eqb_refl. lia.
  - cbn [PyStr.rfind]. rewrite (rfind_absent name c H). cbn.
    rewrite Ascii.eqb_refl. lia.
Qed.

Lemma drop_append (a b : string) : PyStr.drop (String.length a) (a ++ b) = b.
Proof.
  induction a as [|x a IH]; [destruct b; reflexivity | exact IH].
Qed.

(** The base name of [<directory>/<name>] is [<name>]. *)
Lemma basename_of_joined (directory name : string) :
  PyStr.contains "/" name = false ->
  PyStr.basename (directory ++ "/" ++ name) = name.
Proof.
  intros H. unfold PyStr.basename.
  change (directory ++ "/" ++ name) with (directory ++ String "/" name).
  rewrite (rfind_last_separator directory name "/" H).
  replace (Z.to_nat (Z.of_nat (String.length directory) + 1))
    with (String.length (directory ++ "/")).
  - replace (directory ++ String "/" name) with ((directory ++ "/") ++ name).
    + apply drop_append.
    + clear. induction directory as [|x d IH]; [reflexivity|].
      simpl. now rewrite IH.
  - clear. induction directory as [|x d IH]; [reflexivity|].
    cbn [append String.length]. rewrite IH. lia.
Qed.

End LastOccurrence.

(* ================================================================== *)
(** ** Further properties of the reference resolver *)
(* ================================================================== *)

Section ResolverCases.

Variable dataset_name : string.
Variable file_index : Z.

Lemma absolute_is_not_url (s : string) :
  PyStr.startswith s "/" = true -> is_http_url (VStr s) = false.
Proof.
  unfold PyStr.startswith. intros H.
  destruct s as [|a r]; [simpl in H; discriminate H|].
  cbn [String.prefix] in H.
  destruct (ascii_dec "/" a) as [<- | _]; [reflexivity | discriminate H].
Qed.

(** X13. A string that starts with [/] is reduced to its last component:
    [<directory>/<name>] gives the filename [<name>], which is returned as
    it is without a dataset name, and combined with the dataset name when
    there is one and the name is neither ['None'] nor holds [<none>]. *)
Theorem absolute_path_keeps_file_name (directory name : string) :
  PyStr.startswith (directory ++ "/" ++ name) "/" = true ->
  PyStr.contains "/" name = false ->
  name <> "" ->
  locate (VStr (directory ++ "/" ++ name)) file_index
  = ([], Ok (Named (VStr name)))
  /\ get_video_url_from_hf (VStr (directory ++ "/" ++ name)) "" file_index
     = ([], Ok (VStr name))
  /\ (dataset_name <> "" ->
      name <> "None" ->
      PyStr.contains "<none>" (PyStr.lower name) = false ->
      get_video_url_from_hf (VStr (directory ++ "/" ++ name)) dataset_name
                            file_index
      = ([], Ok (VStr ("https://huggingface.co/datasets/" ++ dataset_name
                       ++ "/resolve/main/" ++ name)))).
Proof.
  intros Habs Hname Hne.
  assert (Hloc : locate (VStr (directory ++ "/" ++ name)) file_index
                 = ([], Ok (Named (VStr name)))).
  { unfold locate. rewrite (absolute_is_not_url _ Habs).
    cbn [hf_encoded_dict getattr hasattr is_some andb].
    rewrite Habs, (basename_of_joined directory name Hname). reflexivity. }
  assert (Htruthy : truthy (VStr name) = true).
  { cbn [truthy]. destruct (String.eqb_spec name ""); [contradiction|].
    reflexivity. }
  split; [exact Hloc|]. split.
  - unfold get_video_url_from_hf. rewrite Hloc. cbn [bind ret app].
    unfold finish, can_build_url. rewrite Htruthy. reflexivity.
  - intros Hds Hnone Hsent.
    unfold get_video_url_from_hf. rewrite Hloc. cbn [bind ret app].
    unfold finish, can_build_url. rewrite Htruthy. cbn [py_str].
    rewrite Hsent. cbn [not_None_text].
    destruct (String.eqb_spec dataset_name ""); [contradiction|].
    destruct (String.eqb_spec name "None"); [contradiction|].
    reflexivity.
Qed.

Lemma from_dict_without_text (keys : list string)
  (d : list (string * pyval)) :
  (forall key s, In key keys -> assoc key d <> Some (VStr s)) ->
  from_dict keys d = Named VNone.
Proof.
  induction keys as [|key rest IH]; intros H; [reflexivity|].
  cbn [from_dict].
  destruct (assoc key d) as [[ | | | s | | | ]|] eqn:Hkey;
    try (apply IH; intros k s' Hin; apply H; now right).
  exfalso. apply (H key s); [now left | exact Hkey].
Qed.

(** X14. A dictionary that holds no string under any of the keys [url],
    [src], [path], [filename] and [name] (the key is missing, or its value
    is not a string) is resolved to the placeholder
    [video_<index>.mp4], whatever the dataset name; so is the empty
    string. *)
Theorem unusable_reference_gets_placeholder (d : list (string * pyval)) :
  (forall key s, In key ["url"; "src"; "path"; "filename"; "name"] ->
                 assoc key d <> Some (VStr s)) ->
  get_video_url_from_hf (VDict d) dataset_name file_index
  = ([], Ok (VStr ("video_" ++ PyStr.of_int file_index ++ ".mp4")))
  /\ get_video_url_from_hf (VStr "") dataset_name file_index
     = ([], Ok (VStr ("video_" ++ PyStr.of_int file_index ++ ".mp4"))).
Proof.
  intros H. split; [|reflexivity].
  unfold get_video_url_from_hf, locate.
  cbn [is_http_url hf_encoded_dict getattr hasattr is_some andb].
  rewrite (from_dict_without_text _ d H). reflexivity.
Qed.

(** X15. A string that is taken as a filename (it is no URL and does not
    start with [/]) and that is ['None'], or holds [<none>] in any case of
    letters, is never made into a URL: it is returned as it is, with or
    without a dataset name. *)
Theorem none_text_is_not_combined (s : string) :
  is_http_url (VStr s) = false ->
  PyStr.startswith s "/" = false ->
  s = "None" \/ PyStr.contains "<none>" (PyStr.lower s) = true ->
  get_video_url_from_hf (VStr s) dataset_name file_index = ([], Ok (VStr s)).
Proof.
  intros Hurl Habs Hsent.
  unfold get_video_url_from_hf, locate. rewrite Hurl.
  cbn [hf_encoded_dict getattr hasattr is_some andb]. rewrite Habs.
  cbn [bind ret app]. unfold finish, can_build_url.
  assert (Htruthy : truthy (VStr s) = true).
  { destruct Hsent as [-> | Hc]; [reflexivity|].
    destruct s; [discriminate Hc | reflexivity]. }
  rewrite Htruthy. cbn [py_str not_None_text].
  destruct Hsent as [-> | Hc].
  - rewrite andb_false_r. reflexivity.
  - rewrite Hc. cbn [negb]. rewrite andb_false_r. reflexivity.
Qed.

(** X21. The file name of a container is read as a path unguarded in
    lines 59-64 and guarded in lines 67-82.  An object with [container] and
    an [_hf_encoded] that is no dictionary, whose [container.name] is not a
    string, makes the resolver raise [TypeError] (line 61).  When the
    container has no [name] and no [metadata], and there is no
    [_c.file.name], a [container.file.name] that is not a string raises the
    same error inside the [try] (line 77): it is printed as a warning and
    the placeholder stands for the filename, so the resolver gives a string
    that is not empty. *)
Theorem container_name_guarded_only_in_search :
  (forall v container name,
      hf_encoded_dict v = None ->
      hasattr v "_hf_encoded" = true ->
      getattr v "container" = Some container ->
      getattr container "name" = Some name ->
      is_text name = false ->
      get_video_url_from_hf v dataset_name file_index = ([], Raise TypeError))
  /\ (forall v container file name,
        hf_encoded_dict v = None ->
        hasattr v "_hf_encoded" = true ->
        getattr v "container" = Some container ->
        hasattr container "name" = false ->
        has_c_file_name v = false ->
        hasattr container "metadata" = false ->
        getattr container "file" = Some file ->
        getattr file "name" = Some name ->
        is_text name = false ->
        from_container_guarded v file_index
        = ([WarnNoFilename TypeError], Ok (VStr (placeholder file_index)))
        /\ exists s,
             get_video_url_from_hf v dataset_name file_index
             = ([WarnNoFilename TypeError], Ok (VStr s))
             /\ s <> "").
Proof.
  split.
  - intros v c n Henc Hhf Hc Hn Htext.
    unfold get_video_url_from_hf, locate.
    destruct v as [ | | | | | | t attrs]; try discriminate Hc.
    cbn [is_http_url]. rewrite Henc. unfold hasattr at 1. rewrite Hc, Hhf.
    cbn [is_some andb]. unfold from_container, py_getattr. rewrite Hc.
    cbn [lift bind]. unfold hasattr. rewrite Hn. cbn [is_some].
    destruct n; try discriminate Htext; reflexivity.
  - intros v c file n Henc Hhf Hc Hname Hcfile Hmeta Hfile Hn Htext.
    assert (Hreach : reaches_guarded_search v = true).
    { unfold reaches_guarded_search. rewrite Henc, Hhf, Hc, Hname, Hcfile.
      unfold hasattr. rewrite Hc. reflexivity. }
    assert (Hsearch : snd (container_search v) = Raise TypeError).
    { unfold container_search, py_getattr. rewrite Hc. cbn [lift bind].
      rewrite Hname, Hmeta. unfold hasattr at 1. rewrite Hfile.
      cbn [is_some lift bind]. unfold hasattr. rewrite Hn. cbn [is_some].
      destruct n; try discriminate Htext; reflexivity. }
    destruct (guarded_reference_resolves v dataset_name file_index Hreach)
      as [out [f [Hg Hres]]].
    pose proof (from_container_guarded_cases v file_index) as Hk.
    rewrite Hsearch in Hk. split; [exact Hk|].
    rewrite Hg in Hk. inversion Hk; subst.
    destruct (finish_textual (VStr (placeholder file_index)) dataset_name
                file_index) as [s [Hfin Hs]]; [right; eauto|].
    exists s. rewrite Hres, Hfin. split; [reflexivity | exact Hs].
Qed.

End ResolverCases.

(* ================================================================== *)
(** ** Further properties of the directory converter *)
(* ================================================================== *)

Section DirectoryListing.
Import VideoDirToInput.

Lemma lower_char_dot (c : ascii) :
  Ascii.eqb (PyStr.lower_char c) "." = Ascii.eqb c ".".
Proof.
  destruct c as [[] [] [] [] [] [] [] []]; reflexivity.
Qed.

(** Lower case neither adds nor removes a dot. *)
Lemma contains_dot_lower (s : string) :
  PyStr.contains "." (PyStr.lower s) = PyStr.contains "." s.
Proof.
  induction s as [|c r IH]; [reflexivity|].
  cbn [PyStr.lower]. rewrite !contains_char_cons, lower_char_dot, IH.
  reflexivity.
Qed.

Lemma lower_length (s : string) :
  String.length (PyStr.lower s) = String.length s.
Proof.
  induction s as [|c r IH]; [reflexivity|]. cbn. now rewrite IH.
Qed.

(** A text that is a recognized extension in lower case is a dot followed
    by at least one character, none of them a dot. *)
Lemma recognized_extension_shape (ext : string) :
  in_set (PyStr.lower ext) VIDEO_EXTENSIONS = true ->
  exists rest,
    ext = String "." rest
    /\ PyStr.contains "." rest = false
    /\ rest <> "".
Proof.
  intros H.
  assert (Hshape : exists t, PyStr.lower ext = String "." t
                             /\ PyStr.contains "." t = false
                             /\ t <> "").
  { unfold in_set, VIDEO_EXTENSIONS in H. cbn [existsb] in H.
    repeat (apply orb_prop in H; destruct H as [H | H]);
      try discriminate H;
      apply String.eqb_eq in H; eexists;
      (split; [exact H | split; [reflexivity | discriminate]]). }
  destruct Hshape as [t [Hlow [Hdot Hne]]].
  destruct ext as [|c rest]; [discriminate Hlow|].
  cbn [PyStr.lower] in Hlow. inversion Hlow as [[Hc Ht]].
  assert (Hceq : c = "."%char).
  { apply Ascii.eqb_eq. rewrite <- lower_char_dot, Hc. reflexivity. }
  subst c. exists rest. split; [reflexivity|]. split.
  - rewrite <- contains_dot_lower, Ht. exact Hdot.
  - intros ->. apply Hne. now rewrite <- Ht.
Qed.

Lemma append_length (a b : string) :
  String.length (a ++ b) = (String.length a + String.length b)%nat.
Proof.
  induction a as [|x a IH]; [reflexivity|]. cbn. now rewrite IH.
Qed.

(** The suffix of [<stem><ext>] is [<ext>] for a recognized extension in
    any case of letters. *)
Lemma suffix_of_recognized (p : path) (stem ext : string) :
  stem <> "" ->
  in_set (PyStr.lower ext) VIDEO_EXTENSIONS = true ->
  suffix (child p (stem ++ ext)) = ext.
Proof.
  intros Hstem Hext.
  destruct (recognized_extension_shape ext Hext) as [rest [-> [Hdot Hne]]].
  unfold suffix. rewrite name_of_child.
  rewrite (rfind_last_separator stem rest "." Hdot).
  rewrite append_length. cbn [String.length].
  assert (0 < String.length stem)%nat
    by (destruct stem; [contradiction | cbn; lia]).
  assert (0 < String.length rest)%nat
    by (destruct rest; [contradiction | cbn; lia]).
  destruct (Z.ltb_spec 0 (Z.of_nat (String.length stem))); [|lia].
  destruct (Z.ltb_spec (Z.of_nat (String.length stem))
              (Z.of_nat (String.length stem + S (String.length rest)) - 1));
    [|lia].
  cbn [andb]. rewrite Nat2Z.id. apply drop_append.
Qed.

(** X16. Every file of the directory whose name is a non-empty stem
    followed by a recognized extension, in any mix of upper and lower
    case, is in the list that [find_video_files] returns. *)
Theorem recognized_file_is_listed (fs : filesystem) (directory : string)
  (entries : list (string * bool)) (stem ext : string) :
  fs (path_str (Path directory)) = Dir entries ->
  In (stem ++ ext, true) entries ->
  stem <> "" ->
  in_set (PyStr.lower ext) VIDEO_EXTENSIONS = true ->
  exists video_files,
    find_video_files fs directory = Ok video_files
    /\ In (path_str (child (Path directory) (stem ++ ext))) video_files.
Proof.
  intros Hdir Hin Hstem Hext.
  unfold find_video_files. rewrite Hdir. eexists. split; [reflexivity|].
  eapply Permutation_in; [apply StringSort.Permuted_sort|].
  apply in_map_iff. exists (stem ++ ext, true). split; [reflexivity|].
  apply filter_In. split; [exact Hin|].
  unfold is_video. cbn [fst snd andb].
  rewrite (suffix_of_recognized _ stem ext Hstem Hext). exact Hext.
Qed.

(** What comes before a name in the text of an entry's path. *)
Definition path_prefix (p : path) : string :=
  root p ++ String.concat "" (map (fun part => part ++ "/") (parts p)).

Lemma concat_last (l : list string) (name : string) :
  String.concat "/" (l ++ [name])
  = String.concat "" (map (fun part => part ++ "/") l) ++ name.
Proof.
  induction l as [|x l IH]; [reflexivity|].
  change ((x :: l) ++ [name])%list with (x :: (l ++ [name]))%list.
  destruct l as [|y l].
  - cbn. clear. induction x as [|c x IH]; [reflexivity|].
    cbn. now rewrite IH.
  - change (String.concat "/" (x :: (y :: l) ++ [name])%list)
      with (x ++ "/" ++ String.concat "/" ((y :: l) ++ [name])%list).
    rewrite IH. cbn [map String.concat].
    clear. generalize (String.concat "" (map (fun part => part ++ "/") l)).
    intros t.
    assert (Happ : forall a b c : string, (a ++ b) ++ c = a ++ b ++ c).
    { intros a b c. induction a as [|h a IHa]; [reflexivity|].
      cbn. now rewrite IHa. }
    destruct l; cbn [map String.concat]; rewrite ?Happ; reflexivity.
Qed.

Lemma path_of_child (p : path) (name : string) :
  path_str (child p name) = path_prefix p ++ name.
Proof.
  unfold path_str, child, path_prefix. cbn [parts root].
  destruct (parts p ++ [name])%list eqn:Hparts.
  - destruct (parts p); discriminate Hparts.
  - rewrite <- Hparts. unfold PyStr.join. rewrite concat_last.
    clear. generalize (String.concat "" (map (fun part => part ++ "/") (parts p))).
    intros t. induction (root p) as [|h r IH]; [reflexivity|].
    cbn. now rewrite IH.
Qed.

Lemma append_cancel (a x y : string) : a ++ x = a ++ y -> x = y.
Proof.
  induction a as [|h a IH]; [trivial|]. cbn. intros H. inversion H. auto.
Qed.

Lemma NoDup_map_filter_fst (f : string * bool -> bool)
  (entries : list (string * bool)) :
  NoDup (map fst entries) -> NoDup (map fst (filter f entries)).
Proof.
  induction entries as [|e rest IH]; intros H; [constructor|].
  cbn [map] in H. inversion H as [|x l Hnot Hrest]; subst.
  cbn [filter]. destruct (f e); [|now apply IH].
  cbn [map]. constructor; [|now apply IH].
  intros Hin. apply Hnot. apply in_map_iff in Hin.
  destruct Hin as [e' [Heq Hin']]. apply filter_In in Hin'.
  apply in_map_iff. exists e'. tauto.
Qed.

(** X17. When the names in the directory are distinct, no path is listed
    twice by [find_video_files]. *)
Theorem listed_paths_are_distinct (fs : filesystem) (directory : string)
  (entries : list (string * bool)) :
  fs (path_str (Path directory)) = Dir entries ->
  NoDup (map fst entries) ->
  exists video_files,
    find_video_files fs directory = Ok video_files /\ NoDup video_files.
Proof.
  intros Hdir Hnames. unfold find_video_files. rewrite Hdir.
  eexists. split; [reflexivity|].
  eapply Permutation_NoDup; [apply StringSort.Permuted_sort|].
  rewrite <- (map_map fst (fun name => path_str (child (Path directory) name))).
  apply Finite.Injective_map_NoDup.
  - intros x y Heq. rewrite !path_of_child in Heq.
    now apply append_cancel in Heq.
  - now apply NoDup_map_filter_fst.
Qed.

End DirectoryListing.

(* ================================================================== *)
(** ** video_dir_to_input.py: the command *)
(* ================================================================== *)

Module VideoDirCommand.
Import Py VideoDirToInput.

(** [s.endswith(c)] for a one-character suffix *)
Fixpoint endswith (s : string) (c : ascii) : bool :=
  match s with
  | EmptyString => false
  | String a EmptyString => Ascii.eqb a c
  | String _ r => endswith r c
  end.

(** [posixpath.join(a, b)] *)
Definition path_join (a b : string) : string :=
  if PyStr.startswith b "/" then b
  else if String.eqb a "" || endswith a "/" then a ++ b
  else a ++ "/" ++ b.

(** One step of the loop of [posixpath.normpath] over the components. *)
Definition normpath_step (initial_slashes : nat) (new_comps : list string)
  (comp : string) : list string :=
  if String.eqb comp "" || String.eqb comp "." then new_comps
  else if negb (String.eqb comp "..")
          || ((initial_slashes =? 0)%nat
              && match new_comps with [] => true | _ => false end)
          || match new_comps with
             | [] => false
             | _ => String.eqb (last new_comps "") ".."
             end
  then (new_comps ++ [comp])%list
  else removelast new_comps.

(** [posixpath.normpath(path)] *)
Definition normpath (path : string) : string :=
  if String.eqb path "" then "."
  else
    let initial_slashes :=
      if PyStr.startswith path "/" then
        if PyStr.startswith path "//" && negb (PyStr.startswith path "///")
        then 2%nat else 1%nat
      else 0%nat in
    let comps := PyStr.split path "/" in
    let new_comps := fold_left (normpath_step initial_slashes) comps [] in
    let path := PyStr.join "/" new_comps in
    let path := String.concat "" (repeat "/" initial_slashes) ++ path in
    if String.eqb path "" then "." else path.

(** [posixpath.abspath(path)], in the working directory [cwd] *)
Definition abspath (cwd path : string) : string :=
  normpath (if PyStr.startswith path "/" then path else path_join cwd path).

(** The length of [commonprefix] of two lists *)
Fixpoint common_length (l1 l2 : list string) : nat :=
  match l1, l2 with
  | x :: r1, y :: r2 => if String.eqb x y then S (common_length r1 r2) else 0
  | _, _ => 0
  end.

Definition nonempty_parts (path : string) : list string :=
  filter (fun x => negb (String.eqb x "")) (PyStr.split path "/").

(** [os.path.relpath(path)], in the working directory [cwd] *)
Definition relpath (cwd path : string) : result string :=
  if String.eqb path "" then Raise (ValueError "no path specified")
  else
    let start_list := nonempty_parts (abspath cwd ".") in
    let path_list := nonempty_parts (abspath cwd path) in
    let i := common_length start_list path_list in
    let rel_list :=
      (repeat ".." (length start_list - i) ++ skipn i path_list)%list in
    match rel_list with
    | [] => Ok "."
    | first :: others => Ok (fold_left path_join others first)
    end.

(** [[f(x) for x in xs]] where [f] may raise *)
Fixpoint for_each {A B} (f : A -> result B) (xs : list A) : result (list B) :=
  match xs with
  | [] => Ok []
  | x :: rest =>
      match f x with
      | Raise e => Raise e
      | Ok y =>
          match for_each f rest with
          | Raise e => Raise e
          | Ok ys => Ok (y :: ys)
          end
      end
  end.

(** The parsed command line. *)
Module args.
Record t : Type := {
  video_dir : string;
  output : string;
  label : string;
  relative_paths : bool
}.
End args.

(** Lines printed. *)
Inductive line : Type :=
| NoVideoFiles (video_dir : string)
| FoundFiles (n : nat)
| FoundFile (video : string)
| JsonFileCreated (output : string)
| ContainsEntries (n : nat) (label : string)
| ErrorLine (e : exn).

Definition entry_json (e : entry) : pyval :=
  VDict [("video", VStr (video e)); ("label", VStr (label e))].

(** [main]: what it prints, the output file after it, and what it returns
    ([None] or [1]).  [fs] is the file system it lists, [cwd] the working
    directory, [w] the state of the output file. *)
Definition main (fs : filesystem) (cwd : string) (a : args.t)
  (w : HfDbToInput.world)
  : HfDbToInput.world * (list line * option Z) :=
  match find_video_files fs (args.video_dir a) with
  | Raise e => (w, ([ErrorLine e], Some 1))
  | Ok [] => (w, ([NoVideoFiles (args.video_dir a)], None))
  | Ok video_files =>
      let found :=
        FoundFiles (length video_files) :: map FoundFile video_files in
      match (if args.relative_paths a
             then for_each (relpath cwd) video_files
             else Ok video_files) with
      | Raise e => (w, ((found ++ [ErrorLine e])%list, Some 1))
      | Ok video_files =>
          let json_data := create_json_input video_files (args.label a) in
          match HfDbToInput.json_dump (VList (map entry_json json_data)) w with
          | (w', (_, Ok _)) =>
              (w', ((found
                     ++ [JsonFileCreated (args.output a);
                         ContainsEntries (length json_data) (args.label a)])%list,
                    None))
          | (w', (_, Raise e)) => (w', ((found ++ [ErrorLine e])%list, Some 1))
          end
      end
  end.

End VideoDirCommand.

Example relpath_examples :
  map (VideoDirCommand.relpath "/home/u/proj")
      ["videos/a.mp4"; "/home/u/proj/videos/a.mp4"; "/home/u/a.mp4";
       "//x/a.mp4"; "/home/u/proj"; "a/../b.mp4"; "./a//b/"; "/.."]
  = map Ok ["videos/a.mp4"; "videos/a.mp4"; "../a.mp4"; "../../../x/a.mp4";
            "."; "b.mp4"; "a/b"; "../../.."]
  /\ VideoDirCommand.relpath "/" ".." = Ok "."
  /\ VideoDirCommand.relpath "/a/b" "" = Raise (ValueError "no path specified").
Proof. repeat split. Qed.

Section DirectoryCommand.
Import VideoDirToInput VideoDirCommand.

Variables (fs : filesystem) (cwd : string) (a : args.t).
Variable w : HfDbToInput.world.

(** X18. When the directory does not exist, or the path is not a
    directory, [main] prints the error and returns [1]; when the directory
    holds no video file, [main] says so and returns [None].  In all three
    cases the output file is left as it was. *)
Theorem main_without_videos_writes_nothing :
  (fs (path_str (Path (args.video_dir a))) = Absent ->
   main fs cwd a w
   = (w, ([ErrorLine (FileNotFoundError
                        ("Directory not found: " ++ args.video_dir a))],
          Some 1)))
  /\ (fs (path_str (Path (args.video_dir a))) = NotDirectory ->
      main fs cwd a w
      = (w, ([ErrorLine (NotADirectoryError
                           ("Path is not a directory: " ++ args.video_dir a))],
             Some 1)))
  /\ (forall entries,
        fs (path_str (Path (args.video_dir a))) = Dir entries ->
        filter (is_video (Path (args.video_dir a))) entries = [] ->
        main fs cwd a w = (w, ([NoVideoFiles (args.video_dir a)], None))).
Proof.
  unfold main, find_video_files. repeat split.
  - intros ->. reflexivity.
  - intros ->. reflexivity.
  - intros entries -> ->. reflexivity.
Qed.

Lemma relpath_defined (p : string) :
  p <> "" -> exists r, relpath cwd p = Ok r.
Proof.
  intros Hp. unfold relpath.
  destruct (String.eqb_spec p ""); [contradiction|].
  match goal with
  | |- context [match ?l with _ => _ end] => destruct l
  end; eexists; reflexivity.
Qed.

Lemma for_each_defined {A B} (f : A -> result B) (xs : list A) :
  Forall (fun x => exists y, f x = Ok y) xs ->
  exists ys, for_each f xs = Ok ys /\ length ys = length xs.
Proof.
  induction 1 as [|x rest [y Hy] _ [ys [Hys Hlen]]].
  - exists []. split; reflexivity.
  - exists (y :: ys). cbn [for_each]. rewrite Hy, Hys.
    split; [reflexivity | cbn; now rewrite Hlen].
Qed.

Lemma manifest_serializable (video_files : list string) (l : string) :
  HfDbToInput.serializable
    (VList (map entry_json (create_json_input video_files l))) = true.
Proof.
  cbn [HfDbToInput.serializable]. apply forallb_forall. intros x Hx.
  apply in_map_iff in Hx. destruct Hx as [e [<- _]]. reflexivity.
Qed.

Lemma listed_paths_nonempty (entries : list (string * bool))
  (video_files : list string) :
  fs (path_str (Path (args.video_dir a))) = Dir entries ->
  Forall (fun e => fst e <> "") entries ->
  find_video_files fs (args.video_dir a) = Ok video_files ->
  Forall (fun p => p <> "") video_files.
Proof.
  intros Hdir Hnames Hfind. unfold find_video_files in Hfind.
  rewrite Hdir in Hfind. inversion Hfind; subst video_files.
  apply Forall_forall. intros p Hp.
  eapply Permutation_in in Hp;
    [|apply Permutation_sym, StringSort.Permuted_sort].
  apply in_map_iff in Hp. destruct Hp as [e [<- He]].
  apply filter_In in He. destruct He as [He _].
  rewrite Forall_forall in Hnames. specialize (Hnames e He).
  rewrite path_of_child. intros Hempty.
  destruct (path_prefix (Path (args.video_dir a))); cbn in Hempty;
    [contradiction | discriminate].
Qed.

(** X19. When the directory holds at least one video file, its names are
    not empty and the output file can be written, [main] returns [None]
    and the output file holds one entry for each video file that
    [find_video_files] lists, in the same order, each with the label
    given; the videos are the paths listed or, with [--relative-paths],
    their [os.path.relpath]. *)
Theorem main_writes_the_manifest (entries : list (string * bool))
  (video_files : list string) :
  fs (path_str (Path (args.video_dir a))) = Dir entries ->
  Forall (fun e => fst e <> "") entries ->
  find_video_files fs (args.video_dir a) = Ok video_files ->
  video_files <> [] ->
  HfDbToInput.output_file w <> HfDbToInput.IsDirectory ->
  HfDbToInput.writable w = true ->
  exists written out,
    main fs cwd a w
    = ({| HfDbToInput.output_file :=
            HfDbToInput.Holds
              (Some (VList (map entry_json
                                (create_json_input written (args.label a)))));
          HfDbToInput.writable := true |},
       (out, None))
    /\ length written = length video_files
    /\ (if args.relative_paths a
        then for_each (relpath cwd) video_files = Ok written
        else written = video_files).
Proof.
  intros Hdir Hnames Hfind Hne Hnotdir Hw.
  pose proof (listed_paths_nonempty entries video_files Hdir Hnames Hfind)
    as Hpaths.
  assert (Hwritten :
    exists written,
      (if args.relative_paths a
       then for_each (relpath cwd) video_files
       else Ok video_files) = Ok written
      /\ length written = length video_files).
  { destruct (args.relative_paths a).
    - apply for_each_defined. eapply Forall_impl; [|exact Hpaths].
      intros p Hp. now apply relpath_defined.
    - exists video_files. split; reflexivity. }
  destruct Hwritten as [written [Hmap Hlen]].
  exists written. unfold main. rewrite Hfind.
  destruct video_files as [|v rest]; [contradiction|].
  rewrite Hmap. unfold HfDbToInput.json_dump.
  rewrite Hw, manifest_serializable.
  destruct (HfDbToInput.output_file w); try contradiction;
    (eexists; split; [reflexivity|]; split; [exact Hlen|]);
    destruct (args.relative_paths a); try exact Hmap;
    now inversion Hmap.
Qed.

End DirectoryCommand.

(* ================================================================== *)
(** ** The label distribution *)
(* ================================================================== *)

Section LabelCounts.

Lemma count_occ_cons_sum (a : string) (l u : list string) :
  list_sum (map (count_occ string_dec (a :: l)) u)
  = (list_sum (map (count_occ string_dec l) u) + count_occ string_dec u a)%nat.
Proof.
  induction u as [|x u IH]; [reflexivity|].
  unfold list_sum in *. cbn [map fold_right]. rewrite IH. cbn [count_occ].
  destruct (string_dec a x) as [-> | Hne].
  - destruct (string_dec x x); [lia | contradiction].
  - destruct (string_dec x a); [now subst | lia].
Qed.

(** Counting the occurrences of each of the distinct values of a list
    counts every element once. *)
Lemma count_occ_sum (l u : list string) :
  NoDup u ->
  (forall x, In x l -> In x u) ->
  list_sum (map (count_occ string_dec l) u) = length l.
Proof.
  intros Hu. induction l as [|a l IH]; intros Hin.
  - clear. induction u as [|x u IH]; [reflexivity | exact IH].
  - rewrite count_occ_cons_sum, IH by (intros x Hx; apply Hin; now right).
    rewrite (proj1 (NoDup_count_occ' string_dec u) Hu a)
      by (apply Hin; now left).
    cbn [length]. lia.
Qed.

Lemma nodup_of_equal (x : string) (l : list string) :
  Forall (fun y => y = x) l -> (length (nodup string_dec l) <= 1)%nat.
Proof.
  induction 1 as [|y l -> Hl IH]; [cbn; lia|].
  cbn [nodup]. destruct (in_dec string_dec x l) as [_ | Hnot]; [exact IH|].
  destruct l as [|z l]; [cbn; lia|].
  exfalso. apply Hnot. inversion Hl; subst. now left.
Qed.

(** X20. The label distribution is printed only when the entries have at
    least two distinct labels, so never when all entries have the same
    label (as with an override).  When it is printed, each distinct label
    has one line, the lines are in the order of strings, and the counts
    add up to the number of entries. *)
Theorem label_distribution_counts_every_entry (json_data : list entry) :
  let labels := map label json_data in
  exists distinct,
    NoDup distinct
    /\ Sorted (fun p q => String.leb p q = true) distinct
    /\ (forall l, In l distinct <-> In l labels)
    /\ list_sum (map (count_occ string_dec labels) distinct)
       = length json_data
    /\ (label_distribution json_data = ([], Ok tt)
        \/ ((2 <= length distinct)%nat
            /\ label_distribution json_data
               = (LabelDistribution
                  :: map (fun l => LabelCount l (count_occ string_dec labels l))
                         distinct,
                  Ok tt)))
    /\ (forall x, Forall (fun e => label e = x) json_data ->
                  label_distribution json_data = ([], Ok tt)).
Proof.
  intros labels.
  exists (StringSort.sort (nodup string_dec labels)).
  pose proof (StringSort.Permuted_sort (nodup string_dec labels)) as Hperm.
  assert (Hnodup : NoDup (StringSort.sort (nodup string_dec labels))).
  { eapply Permutation_NoDup; [exact Hperm | apply NoDup_nodup]. }
  assert (Hin : forall l, In l (StringSort.sort (nodup string_dec labels))
                          <-> In l labels).
  { intros l. split; intros H.
    - apply (nodup_In string_dec).
      eapply Permutation_in; [apply Permutation_sym, Hperm | exact H].
    - eapply Permutation_in; [exact Hperm|].
      now apply (nodup_In string_dec). }
  split; [exact Hnodup|]. split; [apply StringSort.Sorted_sort|].
  split; [exact Hin|]. split; [|split].
  - rewrite (count_occ_sum labels _ Hnodup) by (intros x Hx; now apply Hin).
    apply length_map.
  - unfold label_distribution. fold labels.
    rewrite <- (Permutation_length Hperm).
    destruct (Nat.ltb_spec 1 (length (nodup string_dec labels)));
      [right | left; reflexivity].
    split; [lia | reflexivity].
  - intros x Hall. unfold label_distribution. fold labels.
    assert (Hle : (length (nodup string_dec labels) <= 1)%nat).
    { apply (nodup_of_equal x). unfold labels. apply Forall_forall.
      intros y Hy. apply in_map_iff in Hy. destruct Hy as [e [<- He]].
      rewrite Forall_forall in Hall. now apply Hall. }
    destruct (Nat.ltb_spec 1 (length (nodup string_dec labels)));
      [lia | reflexivity].
Qed.

End LabelCounts.

(* ================================================================== *)
(** ** The further properties on examples *)
(* ================================================================== *)

(** Two records with a label field, and one without the video field. *)
Definition labelled_records : list pyval :=
  [VDict [("video", VStr "https://example.org/a.mp4"); ("kind", VStr "pan")];
   VDict [("kind", VStr "tilt")];
   VDict [("video", VStr "https://example.org/c.mp4"); ("kind", VInt 3)]].

Definition labelled_split : dataset :=
  SplitDict [("train", example_table labelled_records)].

Example labelled_split_built :
  snd (extract_videos_from_dataset labelled_split "alice/myset" "video"
         (Some "kind") "train" None "default_label" None)
  = Ok [ {| video := VStr "https://example.org/a.mp4"; label := "pan" |};
         {| video := VStr "https://example.org/c.mp4"; label := "3" |} ].
Proof. reflexivity. Qed.

Lemma override_labels_every_entry_witness :
  Forall (fun e => label e = "zoom")
         [ {| video := VStr "https://example.org/a.mp4"; label := "zoom" |};
           {| video := VStr "https://example.org/c.mp4"; label := "zoom" |} ].
Proof.
  apply (override_labels_every_entry labelled_split "alice/myset" "video"
           (Some "kind") "train" "default_label" None "zoom"
           [ProcessingStreaming; UsingOverrideLabel "zoom";
            ErrorProcessingItem 1 (KeyError "video")]).
  - discriminate.
  - reflexivity.
Defined.

Lemma relabel_equals_rebuild_witness :
  exists out' entries',
    extract_videos_from_dataset labelled_split "alice/myset" "video"
      (Some "kind") "train" None "default_label" (Some "zoom")
    = (out', Ok entries')
    /\ rewrite_labels
         (VList (map entry_json
            [ {| video := VStr "https://example.org/a.mp4"; label := "pan" |};
              {| video := VStr "https://example.org/c.mp4"; label := "3" |} ]))
         "zoom"
       = Ok (VList (map entry_json entries')).
Proof.
  apply (relabel_equals_rebuild labelled_split "alice/myset" "video"
           (Some "kind") "train" "default_label" None "zoom").
  discriminate.
Defined.

Lemma max_items_bounds_entries_witness :
  (length [ {| video := VStr "https://example.org/a.mp4"; label := "pan" |} ]
   <= Z.to_nat 2)%nat.
Proof.
  apply (proj1 (proj2 (max_items_bounds_entries labelled_split "alice/myset"
                         "video" (Some "kind") "train" "default_label" None
                         (Some 2)
                         [ProcessingStreaming;
                          ErrorProcessingItem 1 (KeyError "video");
                          ReachedMaxItems 2]
                         [ {| video := VStr "https://example.org/a.mp4";
                              label := "pan" |} ]
                         eq_refl)) 2 eq_refl).
  lia.
Defined.

Definition url_records : list pyval :=
  [VDict [("video", VStr "https://example.org/a.mp4")];
   VDict [("id", VInt 1); ("video", VStr "http://example.org/b.mp4")]].

Lemma http_urls_pass_through_witness :
  exists out entries,
    extract_videos_from_dataset (OneSplit (example_table url_records))
      "alice/myset" "video" None "train" None "default_label" None
    = (out, Ok entries)
    /\ map video entries
       = map VStr ["https://example.org/a.mp4"; "http://example.org/b.mp4"].
Proof.
  apply (http_urls_pass_through (OneSplit (example_table url_records))
           "alice/myset" "video" None "train" "default_label" None
           ["https://example.org/a.mp4"; "http://example.org/b.mp4"]
           [] [] (example_table url_records) None eq_refl eq_refl).
  repeat constructor; eexists; repeat split.
Defined.

(** A split that knows its columns. *)
Definition table_with_columns (columns : pyval) (rows : list pyval) : table :=
  {| column_names := Some columns; has_len := true; rows := rows |}.

Lemma video_column_checked_first_witness :
  extract_videos_from_dataset
    (OneSplit (table_with_columns (VList [VStr "clip"; VStr "kind"])
                                  labelled_records))
    "alice/myset" "video" (Some "kind") "train" None "default_label" None
  = ([], Raise (ValueError
       "Video column 'video' not found. Available columns: ['clip', 'kind']")).
Proof.
  apply (proj1 (video_column_checked_first
                  (OneSplit (table_with_columns
                               (VList [VStr "clip"; VStr "kind"])
                               labelled_records))
                  "alice/myset" "video" (Some "kind") "train" None
                  "default_label" None
                  (table_with_columns (VList [VStr "clip"; VStr "kind"])
                                      labelled_records)
                  eq_refl)
           (VList [VStr "clip"; VStr "kind"]));
    reflexivity.
Defined.

Lemma absent_label_column_is_dropped_witness :
  exists out entries,
    extract_videos_from_dataset
      (OneSplit (table_with_columns (VList [VStr "video"]) labelled_records))
      "alice/myset" "video" (Some "kind") "train" None "default_label" None
    = (out, Ok entries)
    /\ In (WarnLabelColumn "kind" (VList [VStr "video"])) out
    /\ Forall (fun e => label e = "default_label") entries.
Proof.
  apply (absent_label_column_is_dropped
           (OneSplit (table_with_columns (VList [VStr "video"])
                                         labelled_records))
           "alice/myset" "video" (Some "kind") "train" None "default_label"
           None
           (table_with_columns (VList [VStr "video"]) labelled_records)
           (VList [VStr "video"]));
    reflexivity.
Defined.

Lemma last_rewriting_wins_witness :
  rewrite_labels
    (VList [VDict [("video", VStr "a.mp4"); ("label", VStr "first")];
            VDict [("video", VStr "b.mp4")]])
    "second"
  = rewrite_labels
      (VList [VDict [("video", VStr "a.mp4"); ("label", VStr "old")];
              VDict [("video", VStr "b.mp4")]])
      "second".
Proof.
  apply (proj1 (last_rewriting_wins
                  (VList [VDict [("video", VStr "a.mp4"); ("label", VStr "old")];
                          VDict [("video", VStr "b.mp4")]])
                  (VList [VDict [("video", VStr "a.mp4"); ("label", VStr "first")];
                          VDict [("video", VStr "b.mp4")]])
                  "first" "second" eq_refl)).
Defined.

(** A dataset service that fails. *)
Definition failing_service (name : string) (subset : option string)
  : result dataset :=
  Raise (External "dataset not found").

Lemma without_entries_main_returns_1_witness :
  exists out,
    main failing_service build_arguments existing_manifest
    = (existing_manifest, (out, Ok (Some 1))).
Proof.
  apply (without_entries_main_returns_1 failing_service build_arguments
           existing_manifest).
  - left. reflexivity.
  - intros e es. discriminate.
Defined.

Definition relabel_arguments : args.t :=
  {| args.database := None;
     args.output := "input.json";
     args.label := "default_label";
     args.change_label := Some "zoom";
     args.video_column := "video";
     args.label_column := None;
     args.split := "train";
     args.subset := None;
     args.streaming := false;
     args.max_items := None |}.

Lemma rewriting_ignores_dataset_witness :
  main failing_service relabel_arguments existing_manifest
  = main one_video_service relabel_arguments existing_manifest.
Proof.
  apply (rewriting_ignores_dataset failing_service one_video_service
           relabel_arguments existing_manifest).
  - reflexivity.
  - discriminate.
Defined.

Example relabel_run :
  main failing_service relabel_arguments existing_manifest
  = ({| output_file :=
          Holds (Some (VList [VDict [("video", VStr "a.mp4");
                                     ("label", VStr "zoom")]]));
        writable := true |},
     ([FoundExisting "input.json" "zoom"; UpdatedEntries 1 "zoom";
       JsonFileUpdated "input.json"],
      Ok (Some 0))).
Proof. reflexivity. Qed.

(** A service whose one record holds an object with a [url] attribute that
    is itself an object. *)
Definition object_url_service (name : string) (subset : option string)
  : result dataset :=
  Ok (OneSplit
        (example_table
           [VDict [("video",
                    VObj "<Video>" [("url", VObj "<Link>" [])])]])).

Lemma unwritable_entry_empties_file_witness :
  exists out',
    main object_url_service build_arguments existing_manifest
    = ({| output_file := Holds None; writable := true |},
       (out', Ok (Some 1)))
    /\ In (ErrorTop TypeError) out'.
Proof.
  apply (unwritable_entry_empties_file object_url_service build_arguments
           existing_manifest
           (OneSplit
              (example_table
                 [VDict [("video",
                          VObj "<Video>" [("url", VObj "<Link>" [])])]]))
           [ProcessingStreaming]
           {| video := VObj "<Link>" [];
              label := "cam_motion.dolly_zoom_movement.has_dolly_in_zoom_out" |}
           []);
    try reflexivity.
  - left. reflexivity.
  - discriminate.
Defined.

Lemma absolute_path_keeps_file_name_witness :
  get_video_url_from_hf (VStr "/data/clips/clip9.mp4") "alice/myset" 4
  = ([], Ok (VStr "https://huggingface.co/datasets/alice/myset/resolve/main/clip9.mp4")).
Proof.
  apply (proj2 (proj2 (absolute_path_keeps_file_name "alice/myset" 4
                         "/data/clips" "clip9.mp4" eq_refl eq_refl
                         ltac:(discriminate))));
    [discriminate | discriminate | reflexivity].
Defined.

Lemma unusable_reference_gets_placeholder_witness :
  get_video_url_from_hf (VDict [("bytes", VNone); ("path", VNone)])
                        "alice/myset" 12
  = ([], Ok (VStr "video_12.mp4")).
Proof.
  apply (proj1 (unusable_reference_gets_placeholder "alice/myset" 12
                  [("bytes", VNone); ("path", VNone)]
                  ltac:(intros key s [<- | [<- | [<- | [<- | [<- | []]]]]];
                        discriminate))).
Defined.

Lemma none_text_is_not_combined_witness :
  get_video_url_from_hf (VStr "clip_<NONE>.mp4") "alice/myset" 0
  = ([], Ok (VStr "clip_<NONE>.mp4")).
Proof.
  apply (none_text_is_not_combined "alice/myset" 0 "clip_<NONE>.mp4");
    [reflexivity | reflexivity | right; reflexivity].
Defined.

Lemma recognized_file_is_listed_witness :
  exists video_files,
    VideoDirToInput.find_video_files example_filesystem "videos"
    = Ok video_files
    /\ In "videos/b.MP4" video_files.
Proof.
  apply (recognized_file_is_listed example_filesystem "videos"
           [("b.MP4", true); ("notes.txt", true); ("a.mkv", true);
            ("clips.mp4", false); (".mp4", true)]
           "b" ".MP4" eq_refl).
  - left. reflexivity.
  - discriminate.
  - reflexivity.
Defined.

Lemma listed_paths_are_distinct_witness :
  exists video_files,
    VideoDirToInput.find_video_files example_filesystem "videos"
    = Ok video_files
    /\ NoDup video_files.
Proof.
  apply (listed_paths_are_distinct example_filesystem "videos"
           [("b.MP4", true); ("notes.txt", true); ("a.mkv", true);
            ("clips.mp4", false); (".mp4", true)]
           eq_refl).
  repeat constructor; simpl; intuition discriminate.
Defined.

Definition directory_arguments : VideoDirCommand.args.t :=
  {| VideoDirCommand.args.video_dir := "videos";
     VideoDirCommand.args.output := "input.json";
     VideoDirCommand.args.label := "moving";
     VideoDirCommand.args.relative_paths := true |}.

Example directory_run :
  VideoDirCommand.main example_filesystem "/home/u" directory_arguments
    {| output_file := Missing; writable := true |}
  = ({| output_file :=
          Holds (Some (VList
            [VDict [("video", VStr "videos/a.mkv"); ("label", VStr "moving")];
             VDict [("video", VStr "videos/b.MP4"); ("label", VStr "moving")]]));
        writable := true |},
     ([VideoDirCommand.FoundFiles 2;
       VideoDirCommand.FoundFile "videos/a.mkv";
       VideoDirCommand.FoundFile "videos/b.MP4";
       VideoDirCommand.JsonFileCreated "input.json";
       VideoDirCommand.ContainsEntries 2 "moving"],
      None)).
Proof. reflexivity. Qed.

Lemma main_writes_the_manifest_witness :
  exists written out,
    VideoDirCommand.main example_filesystem "/home/u" directory_arguments
      {| output_file := Missing; writable := true |}
    = ({| output_file :=
            Holds (Some (VList
              (map VideoDirCommand.entry_json
                   (VideoDirToInput.create_json_input written "moving"))));
          writable := true |},
       (out, None))
    /\ length written = 2%nat.
Proof.
  destruct (main_writes_the_manifest example_filesystem "/home/u"
              directory_arguments
              {| output_file := Missing; writable := true |}
              [("b.MP4", true); ("notes.txt", true); ("a.mkv", true);
               ("clips.mp4", false); (".mp4", true)]
              ["videos/a.mkv"; "videos/b.MP4"])
    as [written [out [Hrun [Hlen _]]]];
    try reflexivity; try discriminate.
  - repeat constructor; discriminate.
  - exists written, out. split; [exact Hrun | exact Hlen].
Defined.

Lemma container_name_guarded_only_in_search_witness :
  get_video_url_from_hf
    (VObj "<VideoReader>"
          [("container", VObj "<container>" [("name", VNone)]);
           ("_hf_encoded", VNone)])
    "alice/myset" 3
  = ([], Raise TypeError)
  /\ (from_container_guarded
        (VObj "<VideoReader>"
              [("container",
                VObj "<container>" [("file", VObj "<file>" [("name", VNone)])]);
               ("_hf_encoded", VNone)])
        3
      = ([WarnNoFilename TypeError], Ok (VStr (placeholder 3)))
      /\ exists s,
           get_video_url_from_hf
             (VObj "<VideoReader>"
                   [("container",
                     VObj "<container>"
                          [("file", VObj "<file>" [("name", VNone)])]);
                    ("_hf_encoded", VNone)])
             "alice/myset" 3
           = ([WarnNoFilename TypeError], Ok (VStr s))
           /\ s <> "").
Proof.
  split.
  - apply (proj1 (container_name_guarded_only_in_search "alice/myset" 3)
             _ (VObj "<container>" [("name", VNone)]) VNone);
      reflexivity.
  - apply (proj2 (container_name_guarded_only_in_search "alice/myset" 3)
             _ (VObj "<container>" [("file", VObj "<file>" [("name", VNone)])])
             (VObj "<file>" [("name", VNone)]) VNone);
      reflexivity.
Defined.
